(** * Open-Tender-Radar: the scoring engine of [backend/scoring.py]

    A shallow embedding of [ScoringEngine] and of the [TenderDB] record it
    reads ([backend/models.py]), followed by the properties of the engine;
    then the scoring step of [backend/seed.py], the response model and the
    two tender handlers of [backend/main.py], over a table held as the list
    of its rows, with the database's [ILIKE] and [ORDER BY] left open.

    Modelling choices.
    - Python [str] is [string]; [str.lower] and [str.upper] are the ASCII
      case mappings, which is what Python computes on ASCII text.  Python
      also maps letters outside ASCII, so a property that depends on how a
      string is lower-cased or upper-cased is stated for ASCII strings
      ([is_ascii]); a property that holds whatever the mapping does to the
      other characters is stated for every string.  [a in b] on two
      strings is substring containment.
    - The budget is a Python [float]: a rational, an infinity or NaN.
    - Every factor returns one of the literals [0.0], [5.0], [10.0], [15.0],
      [20.0], [25.0], [30.0], [-5.0]; these and their sums are integers that
      floating point represents exactly, so scores are values of [Z].
    - [tender_type] is the string stored in the column; the members of the
      [str]-based enumeration [TenderType] compare equal to their values. *)

From Stdlib Require Import ZArith QArith Bool List Ascii String Lia Lqa.
From Stdlib Require Import Permutation.
Import ListNotations.

Open Scope string_scope.
Open Scope Z_scope.

(** ** Python strings *)

Module PyStr.

Definition is_upper (c : ascii) : bool :=
  let n := nat_of_ascii c in (65 <=? n)%nat && (n <=? 90)%nat.

Definition is_lower (c : ascii) : bool :=
  let n := nat_of_ascii c in (97 <=? n)%nat && (n <=? 122)%nat.

Definition lower_ascii (c : ascii) : ascii :=
  if is_upper c then ascii_of_nat (nat_of_ascii c + 32) else c.

Definition upper_ascii (c : ascii) : ascii :=
  if is_lower c then ascii_of_nat (nat_of_ascii c - 32) else c.

(** [s.lower()], on ASCII text. *)
Fixpoint lower (s : string) : string :=
  match s with
  | EmptyString => EmptyString
  | String c r => String (lower_ascii c) (lower r)
  end.

(** [s.upper()], on ASCII text. *)
Fixpoint upper (s : string) : string :=
  match s with
  | EmptyString => EmptyString
  | String c r => String (upper_ascii c) (upper r)
  end.

(** [needle in hay] for two strings: [needle] starts at some position of
    [hay] (the empty needle is in every string). *)
Fixpoint contains (needle hay : string) : bool :=
  String.prefix needle hay ||
  match hay with
  | EmptyString => false
  | String _ r => contains needle r
  end.

(** [x in l] for a list of strings: some element equals [x]. *)
Definition mem (x : string) (l : list string) : bool :=
  existsb (String.eqb x) l.

(** Truth value of a string: the empty string is falsy. *)
Definition truthy (s : string) : bool :=
  match s with
  | EmptyString => false
  | String _ _ => true
  end.

(** Truth value of an [Optional[str]]: [None] and the empty string are
    falsy. *)
Definition opt_truthy (o : option string) : bool :=
  match o with
  | None => false
  | Some s => truthy s
  end.

(** Two characters that differ at most by ASCII letter case. *)
Definition same_letter (a b : ascii) : bool :=
  Ascii.eqb a b
  || (is_upper a && Ascii.eqb (lower_ascii a) b)
  || (is_upper b && Ascii.eqb a (lower_ascii b)).

(** Case-insensitive equality, character by character. *)
Fixpoint eq_nocase (s t : string) : bool :=
  match s, t with
  | EmptyString, EmptyString => true
  | String a s', String b t' => same_letter a b && eq_nocase s' t'
  | _, _ => false
  end.

End PyStr.

(** ** Python floats *)

Module PyFloat.

Inductive pyfloat : Type :=
| Finite (q : Q)
| PosInf
| NegInf
| NaN.

(** Truth value of a float: only zero is falsy (NaN is truthy). *)
Definition truthy (x : pyfloat) : bool :=
  match x with
  | Finite q => negb (Qeq_bool q 0)
  | _ => true
  end.

(** [x < c] for an integer literal [c]; false when [x] is NaN. *)
Definition lt_int (x : pyfloat) (c : Z) : bool :=
  match x with
  | Finite q => negb (Qle_bool (inject_Z c) q)
  | NegInf => true
  | PosInf => false
  | NaN => false
  end.

(** The order of the floats, [x <= y]; NaN is comparable to nothing. *)
Definition le (x y : pyfloat) : Prop :=
  match x, y with
  | NaN, _ | _, NaN => False
  | NegInf, _ => True
  | _, PosInf => True
  | Finite p, Finite q => (p <= q)%Q
  | _, _ => False
  end.

End PyFloat.

Import PyFloat.

(** ** [models.py] *)

(** [class TenderStatus(str, Enum)] *)
Module TenderStatus.
Definition OPEN : string := "open".
Definition CLOSED : string := "closed".
Definition AWARDED : string := "awarded".
Definition CANCELLED : string := "cancelled".
End TenderStatus.

(** [class TenderType(str, Enum)] *)
Module TenderType.
Definition WORKS : string := "works".
Definition SUPPLIES : string := "supplies".
Definition SERVICES : string := "services".
Definition CONCESSION : string := "concession".
End TenderType.

(** [class TenderDB(Base)]: one field per column; a [DateTime] is a number
    of seconds. *)
Record TenderDB : Type := mkTenderDB {
  id : Z;
  title : string;
  description : option string;
  country : string;
  sector : string;
  cpv_code : option string;
  budget : option pyfloat;
  currency : string;
  status : string;
  tender_type : option string;
  deadline : option Z;
  published_date : option Z;
  keywords : option string;
  score : option Z;
  created_at : option Z;
  updated_at : option Z
}.

(** ** [scoring.py] *)

(** The three lists an instance of [ScoringEngine] can override. *)
Record ScoringEngine : Type := mkScoringEngine {
  PRIORITY_COUNTRIES : list string;
  TARGET_SECTORS : list string;
  RELEVANT_KEYWORDS : list string
}.

(** The class-level lists. *)
Module Defaults.

Definition PRIORITY_COUNTRIES : list string :=
  ["ES"; "PT"; "FR"; "IT"; "DE"; "UK"].

Definition TARGET_SECTORS : list string :=
  ["technology"; "software"; "consulting"; "digital"; "it";
   "telecommunications"].

Definition RELEVANT_KEYWORDS : list string :=
  ["digital"; "software"; "cloud"; "api"; "saas"; "platform"; "data";
   "analytics"; "ai"; "machine learning"; "blockchain"; "cybersecurity"].

End Defaults.

(** Class attribute that [__init__] never overrides. *)
Definition LESS_RELEVANT_TYPES : list string :=
  [TenderType.WORKS; TenderType.CONCESSION].

(** Truth value of an [Optional[list[str]]]: [None] and [[]] are falsy. *)
Definition override (o : option (list string)) (default : list string)
  : list string :=
  match o with
  | Some (x :: l) => x :: l
  | _ => default
  end.

(** [ScoringEngine.__init__] *)
Definition __init__
  (priority_countries target_sectors relevant_keywords : option (list string))
  : ScoringEngine :=
  {| PRIORITY_COUNTRIES := override priority_countries Defaults.PRIORITY_COUNTRIES;
     TARGET_SECTORS := override target_sectors Defaults.TARGET_SECTORS;
     RELEVANT_KEYWORDS := override relevant_keywords Defaults.RELEVANT_KEYWORDS |}.

(** [ScoringEngine()] *)
Definition default_engine : ScoringEngine := __init__ None None None.

Section Engine.

Variable self : ScoringEngine.

(** [_score_budget]: the currency is received and not looked at. *)
Definition _score_budget (budget : option pyfloat) (currency : string) : Z :=
  match budget with
  | None => 0
  | Some b =>
      if negb (PyFloat.truthy b) then 0
      else if lt_int b 10000 then 0
      else if lt_int b 50000 then 5
      else if lt_int b 100000 then 15
      else if lt_int b 500000 then 25
      else 30
  end.

(** [_score_country] *)
Definition _score_country (country : string) : Z :=
  if PyStr.mem (PyStr.upper country)
               (map PyStr.upper (PRIORITY_COUNTRIES self))
  then 20 else 5.

(** [_score_sector]: the loop returns at the first target found in the
    lower-cased sector. *)
Definition _score_sector (sector : string) : Z :=
  if negb (PyStr.truthy sector) then 0
  else
    let sector_lower := PyStr.lower sector in
    if existsb (fun target => PyStr.contains target sector_lower)
               (TARGET_SECTORS self)
    then 20 else 5.

(** The text searched by [_score_keywords]. *)
Definition keyword_text (keywords description : option string) : string :=
  let text := "" in
  let text :=
    match keywords with
    | Some k => if PyStr.truthy k then text ++ PyStr.lower k ++ " " else text
    | None => text
    end in
  match description with
  | Some d => if PyStr.truthy d then text ++ PyStr.lower d ++ " " else text
  | None => text
  end.

(** The counting loop of [_score_keywords]. *)
Definition count_matches (text : string) : Z :=
  fold_left
    (fun matches keyword =>
       if PyStr.contains (PyStr.lower keyword) text
       then matches + 1 else matches)
    (RELEVANT_KEYWORDS self) 0.

(** The step mapping that ends [_score_keywords]. *)
Definition keyword_points (matches : Z) : Z :=
  if matches =? 0 then 0
  else if matches <=? 2 then 5
  else if matches <=? 4 then 10
  else 15.

(** [_score_keywords] *)
Definition _score_keywords (keywords description : option string) : Z :=
  let text := keyword_text keywords description in
  if negb (PyStr.truthy text) then 0
  else keyword_points (count_matches text).

(** [_score_tender_type] *)
Definition _score_tender_type (tender_type : option string) : Z :=
  if negb (PyStr.opt_truthy tender_type) then 0
  else
    match tender_type with
    | Some ty =>
        if PyStr.mem ty LESS_RELEVANT_TYPES then -5
        else if PyStr.mem ty [TenderType.SERVICES; TenderType.SUPPLIES]
             then 10
             else 0
    | None => 0
    end.

(** [_score_status] *)
Definition _score_status (status : string) : Z :=
  if String.eqb status "open" then 5 else 0.

(** The sum [calculate_score] accumulates before it clamps. *)
Definition raw_score (tender : TenderDB) : Z :=
  let score := 0 in
  let score := score + _score_budget (budget tender) (currency tender) in
  let score := score + _score_country (country tender) in
  let score := score + _score_sector (sector tender) in
  let score :=
    score + _score_keywords (keywords tender) (description tender) in
  let score := score + _score_tender_type (tender_type tender) in
  let score := score + _score_status (status tender) in
  score.

(** [calculate_score] *)
Definition calculate_score (tender : TenderDB) : Z :=
  Z.max 0 (Z.min 100 (raw_score tender)).

(** The dictionary [explain_score] returns: ["total"] and, under
    ["breakdown"], the six factors in the order the literal lists them. *)
Record Explanation : Type := mkExplanation {
  total : Z;
  breakdown : list (string * Z)
}.

(** [explain_score] *)
Definition explain_score (tender : TenderDB) : Explanation :=
  {| total := calculate_score tender;
     breakdown :=
       [ ("budget", _score_budget (budget tender) (currency tender));
         ("country", _score_country (country tender));
         ("sector", _score_sector (sector tender));
         ("keywords",
          _score_keywords (keywords tender) (description tender));
         ("tender_type", _score_tender_type (tender_type tender));
         ("status", _score_status (status tender)) ] |}.

End Engine.

(** ** Notions the properties are stated with *)

(** [needle] occurs somewhere in [hay]. *)
Definition Substring (needle hay : string) : Prop :=
  exists pre post, hay = pre ++ needle ++ post.

(** Clamping to [[lo, hi]], by cases. *)
Definition clamp (lo hi x : Z) : Z :=
  if x <? lo then lo else if hi <? x then hi else x.

(** [sum(d.values())] *)
Definition sum_values (d : list (string * Z)) : Z :=
  fold_left Z.add (map snd d) 0.

(** What a present, non-empty part adds to the searched text. *)
Definition text_part (o : option string) : string :=
  match o with
  | Some (String c r) => PyStr.lower (String c r) ++ " "
  | _ => ""
  end.

(** The configured keywords found in [text], in list order. *)
Definition found_keywords (self : ScoringEngine) (text : string)
  : list string :=
  filter (fun k => PyStr.contains (PyStr.lower k) text)
         (RELEVANT_KEYWORDS self).


(** The points of the keyword table for a number of matches. *)
Definition keyword_table (n : nat) : Z :=
  match n with
  | 0%nat => 0
  | 1%nat | 2%nat => 5
  | 3%nat | 4%nat => 10
  | _ => 15
  end.

(** All 256 characters. *)
Definition all_ascii : list ascii := map ascii_of_nat (seq 0 256).

(** [d[key]] on a dictionary held as its items in insertion order. *)
Fixpoint dict_get (key : string) (d : list (string * Z)) : option Z :=
  match d with
  | [] => None
  | (k, v) :: r => if String.eqb key k then Some v else dict_get key r
  end.

(** An override that [__init__] takes as not given. *)
Definition omitted (o : option (list string)) : bool :=
  match o with
  | None | Some [] => true
  | Some (_ :: _) => false
  end.

(** The override with the built-in list written out where it was omitted. *)
Definition with_default (o : option (list string)) (default : list string)
  : option (list string) :=
  if omitted o then Some default else o.

(** ** Tenders used as examples *)

(** A tender with every optional column empty. *)
Definition blank_tender : TenderDB :=
  {| id := 1; title := "t"; description := None; country := "BR";
     sector := ""; cpv_code := None; budget := None; currency := "EUR";
     status := TenderStatus.CLOSED; tender_type := None; deadline := None;
     published_date := None; keywords := None; score := None;
     created_at := None; updated_at := None |}.

(** The tender of the end-to-end example. *)
Definition example_tender : TenderDB :=
  {| id := 2; title := "Cloud Infrastructure Migration";
     description := Some ""; country := "ES";
     sector := "software development"; cpv_code := None;
     budget := Some (Finite (600000 # 1)); currency := "EUR";
     status := "open"; tender_type := Some TenderType.SERVICES;
     deadline := None; published_date := None;
     keywords := Some "cloud, api, saas"; score := None;
     created_at := None; updated_at := None |}.

(** A WORKS tender whose other columns give the least each factor can. *)
Definition works_tender : TenderDB :=
  {| id := 3; title := "Road Construction Project"; description := None;
     country := ""; sector := ""; cpv_code := None; budget := None;
     currency := "EUR"; status := TenderStatus.CLOSED;
     tender_type := Some TenderType.WORKS; deadline := None;
     published_date := None; keywords := None; score := None;
     created_at := None; updated_at := None |}.

(** A tender that reaches the top of every factor. *)
Definition best_tender : TenderDB :=
  {| id := 4; title := "Digital Platform for Public Services";
     description := Some "Cloud API and SaaS delivery"; country := "pt";
     sector := "IT infrastructure"; cpv_code := Some "72000000";
     budget := Some (Finite (500000 # 1)); currency := "USD";
     status := TenderStatus.OPEN; tender_type := Some TenderType.SUPPLIES;
     deadline := Some 1700000000; published_date := Some 1690000000;
     keywords := Some "digital, software"; score := None;
     created_at := None; updated_at := None |}.

(** [example_tender] with every column the score does not read changed. *)
Definition example_tender_relabelled : TenderDB :=
  {| id := 77; title := "Another title";
     description := Some ""; country := "ES";
     sector := "software development"; cpv_code := Some "45000000";
     budget := Some (Finite (600000 # 1)); currency := "GBP";
     status := "open"; tender_type := Some TenderType.SERVICES;
     deadline := Some 1700000000; published_date := Some 1690000000;
     keywords := Some "cloud, api, saas"; score := Some 12;
     created_at := Some 5; updated_at := Some 6 |}.


(** An engine whose priority list holds the empty string. *)
Definition empty_code_engine : ScoringEngine :=
  __init__ (Some [""]) None None.

(** ** More notions for the factors *)

(** Every character of [s] is an ASCII character: [s.isascii()]. *)
Definition is_ascii (s : string) : bool :=
  forallb (fun c => (nat_of_ascii c <? 128)%nat) (list_ascii_of_string s).


(** Every entry of a configured list is ASCII. *)
Definition all_ascii_entries (l : list string) : Prop :=
  Forall (fun entry => is_ascii entry = true) l.

(** Some character of [s] is an ASCII capital letter. *)
Definition has_upper (s : string) : bool :=
  existsb PyStr.is_upper (list_ascii_of_string s).

(** Case-insensitive equality of two optional strings. *)
Definition opt_eq_nocase (o1 o2 : option string) : bool :=
  match o1, o2 with
  | None, None => true
  | Some s, Some t => PyStr.eq_nocase s t
  | _, _ => false
  end.

(** The keyword lists of [e1] are, up to order, part of those of [e2], and
    so are its priority countries and target sectors. *)
Definition extends (e1 e2 : ScoringEngine) : Prop :=
  incl (PRIORITY_COUNTRIES e1) (PRIORITY_COUNTRIES e2)
  /\ incl (TARGET_SECTORS e1) (TARGET_SECTORS e2)
  /\ exists extra,
       Permutation (RELEVANT_KEYWORDS e2) (RELEVANT_KEYWORDS e1 ++ extra).

(** ** [seed.py]: the scoring step of [seed_database] *)

(** [tender.score = value] *)
Definition set_score (tender : TenderDB) (value : option Z) : TenderDB :=
  {| id := id tender; title := title tender;
     description := description tender; country := country tender;
     sector := sector tender; cpv_code := cpv_code tender;
     budget := budget tender; currency := currency tender;
     status := status tender; tender_type := tender_type tender;
     deadline := deadline tender; published_date := published_date tender;
     keywords := keywords tender; score := value;
     created_at := created_at tender; updated_at := updated_at tender |}.

(** The body of the loop of [seed_database]:
    [tender.score = scoring_engine.calculate_score(tender)]. *)
Definition seed_score (scoring_engine : ScoringEngine) (tender : TenderDB)
  : TenderDB :=
  set_score tender (Some (calculate_score scoring_engine tender)).

(** ** [models.py]: the response model *)

Module TenderResponse.

(** [Field(..., min_length=lo, max_length=hi)] on a string. *)
Definition length_between (lo hi : nat) (s : string) : bool :=
  (lo <=? String.length s)%nat && (String.length s <=? hi)%nat.

(** [Field(None, gt=0)] on the optional budget. *)
Definition budget_ok (b : option pyfloat) : bool :=
  match b with
  | None => true
  | Some (Finite q) => negb (Qle_bool q 0)
  | Some PosInf => true
  | Some NegInf => false
  | Some NaN => false
  end.

(** [status: TenderStatus]: the string is the value of a member. *)
Definition status_ok (s : string) : bool :=
  PyStr.mem s [TenderStatus.OPEN; TenderStatus.CLOSED;
               TenderStatus.AWARDED; TenderStatus.CANCELLED].

(** [tender_type: Optional[TenderType]] *)
Definition tender_type_ok (o : option string) : bool :=
  match o with
  | None => true
  | Some s => PyStr.mem s [TenderType.WORKS; TenderType.SUPPLIES;
                           TenderType.SERVICES; TenderType.CONCESSION]
  end.

(** [score: float = Field(..., ge=0, le=100)] *)
Definition score_ok (o : option Z) : bool :=
  match o with
  | None => false
  | Some v => (0 <=? v) && (v <=? 100)
  end.

(** A required [datetime]. *)
Definition required (o : option Z) : bool :=
  match o with
  | None => false
  | Some _ => true
  end.

(** The constraints of [TenderBase] and [TenderResponse] on a row. *)
Definition valid (t : TenderDB) : bool :=
  length_between 1 500 (title t)
  && length_between 2 3 (country t)
  && length_between 1 100 (sector t)
  && budget_ok (budget t)
  && length_between 0 3 (currency t)
  && status_ok (status t)
  && tender_type_ok (tender_type t)
  && score_ok (score t)
  && required (created_at t)
  && required (updated_at t).

(** [TenderResponse.model_validate(t)]: the row when it meets the
    constraints, [None] for a validation error. *)
Definition model_validate (t : TenderDB) : option TenderDB :=
  if valid t then Some t else None.

End TenderResponse.

(** ** [main.py] *)

Module Main.

(** What a handler does: it returns, or it raises. *)
Inductive Error : Type :=
| HTTPException (status_code : Z) (detail : string)
| ValidationError.

Inductive Outcome (A : Type) : Type :=
| Returned (a : A)
| Raised (e : Error).

Arguments Returned {A} a.
Arguments Raised {A} e.

(** The column and the direction of an ordering. *)
Inductive SortColumn : Type :=
| ScoreColumn
| BudgetColumn
| PublishedDateColumn.

Inductive SortDirection : Type :=
| asc
| desc.

(** The query parameters of [get_tenders], once FastAPI has accepted
    them. *)
Module Params.

Record t : Type := mk {
  country : option string;
  sector : option string;
  status : option string;
  tender_type : option string;
  min_score : option Q;
  max_score : option Q;
  sort_by : string;
  sort_order : string;
  page : Z;
  page_size : Z
}.

End Params.

(** [TenderListResponse] *)
Record TenderListResponse : Type := mkTenderListResponse {
  items : list TenderDB;
  total : Z;
  page : Z;
  page_size : Z
}.

(** The choice of [order_func] in [get_tenders]. *)
Definition order_func (sort_by sort_order : string)
  : SortDirection * SortColumn :=
  if String.eqb sort_by "score" then
    (if String.eqb sort_order "desc" then desc else asc, ScoreColumn)
  else if String.eqb sort_by "budget" then
    (if String.eqb sort_order "desc" then desc else asc, BudgetColumn)
  else if String.eqb sort_by "published_date" then
    (if String.eqb sort_order "desc" then desc else asc, PublishedDateColumn)
  else (desc, ScoreColumn).

(** [column == value] on a nullable string column: never true on NULL. *)
Definition column_eq (column : option string) (value : string) : bool :=
  match column with
  | Some s => String.eqb s value
  | None => false
  end.

(** [TenderDB.score >= bound]: never true on NULL. *)
Definition score_ge (column : option Z) (bound : Q) : bool :=
  match column with
  | Some v => Qle_bool bound (inject_Z v)
  | None => false
  end.

(** [TenderDB.score <= bound]: never true on NULL. *)
Definition score_le (column : option Z) (bound : Q) : bool :=
  match column with
  | Some v => Qle_bool (inject_Z v) bound
  | None => false
  end.

(** [[TenderResponse.model_validate(t) for t in tenders]] *)
Fixpoint validate_all (tenders : list TenderDB) : option (list TenderDB) :=
  match tenders with
  | [] => Some []
  | t :: r =>
      match TenderResponse.model_validate t with
      | None => None
      | Some v =>
          match validate_all r with
          | None => None
          | Some vs => Some (v :: vs)
          end
      end
  end.

Section Database.

(** The database's [ILIKE]: [ilike column pattern]. *)
Variable ilike : string -> string -> bool.

(** The database's [ORDER BY], for a direction and a column. *)
Variable order_by :
  SortDirection * SortColumn -> list TenderDB -> list TenderDB.

(** The filters of [get_tenders] on the rows of the table; [==] on a
    string column is the exact comparison of SQLite. *)
Definition filtered (q : Params.t) (table : list TenderDB)
  : list TenderDB :=
  let query := table in
  let query :=
    match Params.country q with
    | Some c =>
        if PyStr.truthy c
        then filter (fun t => String.eqb (country t) (PyStr.upper c)) query
        else query
    | None => query
    end in
  let query :=
    match Params.sector q with
    | Some s =>
        if PyStr.truthy s
        then filter (fun t => ilike (sector t) ("%" ++ s ++ "%")) query
        else query
    | None => query
    end in
  let query :=
    match Params.status q with
    | Some v =>
        if PyStr.truthy v
        then filter (fun t => String.eqb (status t) v) query
        else query
    | None => query
    end in
  let query :=
    match Params.tender_type q with
    | Some v =>
        if PyStr.truthy v
        then filter (fun t => column_eq (tender_type t) v) query
        else query
    | None => query
    end in
  let query :=
    match Params.min_score q with
    | Some m => filter (fun t => score_ge (score t) m) query
    | None => query
    end in
  match Params.max_score q with
  | Some m => filter (fun t => score_le (score t) m) query
  | None => query
  end.

(** The ordered rows, before [offset] and [limit]. *)
Definition ordered (q : Params.t) (table : list TenderDB) : list TenderDB :=
  order_by (order_func (Params.sort_by q) (Params.sort_order q))
           (filtered q table).

(** The local [tenders] of [get_tenders]:
    [query.offset(offset).limit(page_size).all()]. *)
Definition page_rows (q : Params.t) (table : list TenderDB)
  : list TenderDB :=
  let offset := (Params.page q - 1) * Params.page_size q in
  firstn (Z.to_nat (Params.page_size q))
         (skipn (Z.to_nat offset) (ordered q table)).

(** [get_tenders] *)
Definition get_tenders (q : Params.t) (table : list TenderDB)
  : Outcome TenderListResponse :=
  let total := Z.of_nat (List.length (filtered q table)) in
  let tenders := page_rows q table in
  match validate_all tenders with
  | Some items =>
      Returned {| items := items; total := total;
                  page := Params.page q; page_size := Params.page_size q |}
  | None => Raised ValidationError
  end.

End Database.

(** [get_tender]: the first row with the identifier, or a 404. *)
Definition get_tender (tender_id : Z) (table : list TenderDB)
  : Outcome TenderDB :=
  match find (fun t => id t =? tender_id) table with
  | None => Raised (HTTPException 404 "Tender not found")
  | Some tender =>
      match TenderResponse.model_validate tender with
      | Some v => Returned v
      | None => Raised ValidationError
      end
  end.

(** [q] with another page number. *)
Definition at_page (q : Params.t) (n : Z) : Params.t :=
  {| Params.country := Params.country q; Params.sector := Params.sector q;
     Params.status := Params.status q;
     Params.tender_type := Params.tender_type q;
     Params.min_score := Params.min_score q;
     Params.max_score := Params.max_score q;
     Params.sort_by := Params.sort_by q;
     Params.sort_order := Params.sort_order q;
     Params.page := n; Params.page_size := Params.page_size q |}.

(** [q] with another country filter. *)
Definition with_country (q : Params.t) (c : option string) : Params.t :=
  {| Params.country := c; Params.sector := Params.sector q;
     Params.status := Params.status q;
     Params.tender_type := Params.tender_type q;
     Params.min_score := Params.min_score q;
     Params.max_score := Params.max_score q;
     Params.sort_by := Params.sort_by q;
     Params.sort_order := Params.sort_order q;
     Params.page := Params.page q; Params.page_size := Params.page_size q |}.

(** [q] with another sort field and direction. *)
Definition with_sort (q : Params.t) (by_ order : string) : Params.t :=
  {| Params.country := Params.country q; Params.sector := Params.sector q;
     Params.status := Params.status q;
     Params.tender_type := Params.tender_type q;
     Params.min_score := Params.min_score q;
     Params.max_score := Params.max_score q;
     Params.sort_by := by_; Params.sort_order := order;
     Params.page := Params.page q; Params.page_size := Params.page_size q |}.

(** The pages 1 to [n] of a request, one after the other. *)
Definition pages_upto
  (rows : Params.t -> list TenderDB) (q : Params.t) (n : nat)
  : list TenderDB :=
  List.concat (map (fun k => rows (at_page q (Z.of_nat k))) (seq 1 n)).

(** The request with no filter and the default sort, page and size. *)
Definition default_params : Params.t :=
  {| Params.country := None; Params.sector := None; Params.status := None;
     Params.tender_type := None; Params.min_score := None;
     Params.max_score := None; Params.sort_by := "score";
     Params.sort_order := "desc"; Params.page := 1;
     Params.page_size := 20 |}.

(** The row the table holds for a seeded tender: the identifier and the
    two timestamps filled in, the score computed by the default engine. *)
Definition stored_row (i : Z) (tender : TenderDB) : TenderDB :=
  let scored := seed_score default_engine tender in
  {| id := i; title := title scored; description := description scored;
     country := country scored; sector := sector scored;
     cpv_code := cpv_code scored; budget := budget scored;
     currency := currency scored; status := status scored;
     tender_type := tender_type scored; deadline := deadline scored;
     published_date := published_date scored; keywords := keywords scored;
     score := score scored; created_at := Some 1700000000;
     updated_at := Some 1700000000 |}.

(** A table of three seeded rows. *)
Definition sample_table : list TenderDB :=
  [stored_row 1 example_tender; stored_row 2 best_tender;
   stored_row 3 example_tender_relabelled].

(** The request for pages of two rows, with no filter. *)
Definition sample_params : Params.t :=
  {| Params.country := None; Params.sector := None; Params.status := None;
     Params.tender_type := None; Params.min_score := None;
     Params.max_score := None; Params.sort_by := "score";
     Params.sort_order := "desc"; Params.page := 1;
     Params.page_size := 2 |}.

(** An ordering that keeps the rows and only turns them round. *)
Definition reversing_order (o : SortDirection * SortColumn)
  (l : list TenderDB) : list TenderDB :=
  match fst o with
  | desc => rev l
  | asc => l
  end.

(** A stand-in for [ILIKE]: the lower-cased pattern, without its first and
    last character, occurs in the lower-cased column. *)
Definition simple_ilike (column pattern : string) : bool :=
  PyStr.contains
    (PyStr.lower (String.substring 1 (String.length pattern - 2) pattern))
    (PyStr.lower column).

End Main.

(** ** Strings *)

Section StringFacts.

Import PyStr.

Lemma prefix_app (n h : string) :
  String.prefix n h = true <-> exists post, h = n ++ post.
Proof.
  revert h; induction n as [|a n IH]; intros h; simpl.
  - destruct h; simpl; split; eauto.
  - destruct h as [|b h]; simpl.
    + split; [discriminate | intros [post E]; discriminate].
    + destruct (ascii_dec a b) as [->|Hab].
      * rewrite IH; split; intros [post E]; exists post.
        -- now rewrite E.
        -- now injection E.
      * split; [discriminate|].
        intros [post E]; injection E as E1 E2; congruence.
Qed.

Lemma contains_Substring (n h : string) :
  contains n h = true <-> Substring n h.
Proof.
  unfold Substring; induction h as [|b h IH].
  - cbn [contains]. rewrite orb_false_r, prefix_app. split.
    + intros [post E]; exists "", post; exact E.
    + intros [pre [post E]]. destruct pre; [eauto | discriminate].
  - cbn [contains]. rewrite orb_true_iff, prefix_app, IH. split.
    + intros [[post E] | [pre [post E]]].
      * exists "", post; exact E.
      * exists (String b pre), post; simpl; now rewrite E.
    + intros [pre [post E]]. destruct pre as [|c pre].
      * left; exists post; exact E.
      * right; exists pre, post. simpl in E; now injection E.
Qed.

Lemma all_ascii_complete (a : ascii) : In a all_ascii.
Proof.
  unfold all_ascii. rewrite <- (ascii_nat_embedding a).
  apply in_map, in_seq. pose proof (nat_ascii_bounded a). lia.
Qed.

Lemma upper_ascii_same_letter (a b : ascii) :
  Ascii.eqb (upper_ascii a) (upper_ascii b) = same_letter a b.
Proof.
  assert (H : forallb (fun x => forallb (fun y =>
                Bool.eqb (Ascii.eqb (upper_ascii x) (upper_ascii y))
                         (same_letter x y)) all_ascii) all_ascii = true)
    by (vm_compute; reflexivity).
  rewrite forallb_forall in H.
  specialize (H a (all_ascii_complete a)).
  rewrite forallb_forall in H.
  specialize (H b (all_ascii_complete b)).
  now apply eqb_prop.
Qed.

Lemma upper_eq_nocase (s t : string) :
  String.eqb (upper s) (upper t) = eq_nocase s t.
Proof.
  revert t; induction s as [|a s IH]; intros [|b t]; simpl; try reflexivity.
  now rewrite upper_ascii_same_letter, IH.
Qed.

Lemma mem_In (x : string) (l : list string) :
  mem x l = true <-> In x l.
Proof.
  unfold mem. rewrite existsb_exists. split.
  - intros [y [Hy E]]. apply String.eqb_eq in E. now subst.
  - intros H; exists x; split; [exact H | apply String.eqb_refl].
Qed.

Lemma append_empty_r (s : string) : s ++ "" = s.
Proof. induction s as [|a s IH]; simpl; [reflexivity | now rewrite IH]. Qed.

Lemma truthy_false (s : string) : truthy s = false <-> s = "".
Proof. destruct s; simpl; split; congruence. Qed.

End StringFacts.

(** ** Floats *)

Section FloatFacts.

Lemma lt_int_Finite (q : Q) (c : Z) :
  lt_int (Finite q) c = true <-> (q < inject_Z c)%Q.
Proof.
  simpl. rewrite negb_true_iff, <- not_true_iff_false, Qle_bool_iff.
  split; [apply Qnot_le_lt | apply Qlt_not_le].
Qed.

Lemma lt_int_Finite_false (q : Q) (c : Z) :
  lt_int (Finite q) c = false <-> (inject_Z c <= q)%Q.
Proof. simpl. now rewrite negb_false_iff, Qle_bool_iff. Qed.

Lemma truthy_Finite_false (q : Q) :
  PyFloat.truthy (Finite q) = false <-> (q == 0)%Q.
Proof. simpl. now rewrite negb_false_iff, Qeq_bool_iff. Qed.

Lemma truthy_Finite_true (q : Q) :
  PyFloat.truthy (Finite q) = true <-> ~ (q == 0)%Q.
Proof.
  simpl. now rewrite negb_true_iff, <- not_true_iff_false, Qeq_bool_iff.
Qed.

End FloatFacts.

(** Turns the tests of [_score_budget] on a finite budget into facts about
    the rational and leaves linear arithmetic. *)
Ltac budget_tests :=
  unfold _score_budget;
  repeat match goal with
         | |- context [PyFloat.truthy (Finite ?q)] =>
             let E := fresh "E" in
             destruct (PyFloat.truthy (Finite q)) eqn:E;
             [apply truthy_Finite_true in E | apply truthy_Finite_false in E];
             cbn [negb]
         | |- context [lt_int (Finite ?q) ?c] =>
             let E := fresh "E" in
             destruct (lt_int (Finite q) c) eqn:E;
             [apply lt_int_Finite in E | apply lt_int_Finite_false in E]
         end;
  unfold inject_Z in *.

(** ** The factors, one by one *)

Section Factors.

Variable self : ScoringEngine.

Lemma _score_budget_values (b : option pyfloat) (cur : string) :
  In (_score_budget b cur) [0; 5; 15; 25; 30].
Proof.
  unfold _score_budget. destruct b as [x|]; [|simpl; tauto].
  destruct (negb (PyFloat.truthy x)); [simpl; tauto|].
  repeat match goal with
         | |- context [if ?c then _ else _] => destruct c
         end; simpl; tauto.
Qed.

Lemma _score_country_values (c : string) :
  _score_country self c = 20 \/ _score_country self c = 5.
Proof. unfold _score_country. destruct (PyStr.mem _ _); auto. Qed.

Lemma _score_sector_values (s : string) :
  In (_score_sector self s) [0; 5; 20].
Proof.
  unfold _score_sector. destruct (negb _); [simpl; tauto|].
  destruct (existsb _ _); simpl; tauto.
Qed.

Lemma keyword_points_values (m : Z) :
  In (keyword_points m) [0; 5; 10; 15].
Proof.
  unfold keyword_points.
  destruct (m =? 0); [simpl; tauto|].
  destruct (m <=? 2); [simpl; tauto|].
  destruct (m <=? 4); simpl; tauto.
Qed.

Lemma _score_keywords_values (k d : option string) :
  In (_score_keywords self k d) [0; 5; 10; 15].
Proof.
  unfold _score_keywords. destruct (negb _); [simpl; tauto|].
  apply keyword_points_values.
Qed.

Lemma _score_tender_type_values (ty : option string) :
  In (_score_tender_type ty) [-5; 0; 10].
Proof.
  unfold _score_tender_type. destruct (negb _); [simpl; tauto|].
  destruct ty as [ty|]; [|simpl; tauto].
  destruct (PyStr.mem ty LESS_RELEVANT_TYPES); [simpl; tauto|].
  destruct (PyStr.mem ty _); simpl; tauto.
Qed.

Lemma _score_status_values (s : string) :
  _score_status s = 5 \/ _score_status s = 0.
Proof. unfold _score_status. destruct (String.eqb _ _); auto. Qed.

Lemma raw_score_bounds (t : TenderDB) : 0 <= raw_score self t <= 100.
Proof.
  unfold raw_score.
  pose proof (_score_budget_values (budget t) (currency t)) as Hb.
  pose proof (_score_country_values (country t)) as Hc.
  pose proof (_score_sector_values (sector t)) as Hs.
  pose proof (_score_keywords_values (keywords t) (description t)) as Hk.
  pose proof (_score_tender_type_values (tender_type t)) as Ht.
  pose proof (_score_status_values (status t)) as Hst.
  simpl in Hb, Hs, Hk, Ht. lia.
Qed.

Lemma count_matches_filter (text : string) :
  count_matches self text = Z.of_nat (List.length (found_keywords self text)).
Proof.
  unfold count_matches, found_keywords.
  assert (G : forall l acc,
             fold_left (fun matches keyword =>
               if PyStr.contains (PyStr.lower keyword) text
               then matches + 1 else matches) l acc
             = acc + Z.of_nat (List.length
                 (filter (fun k => PyStr.contains (PyStr.lower k) text) l))).
  { induction l as [|k l IH]; intros acc; simpl; [lia|].
    rewrite IH. destruct (PyStr.contains _ _); simpl List.length; lia. }
  rewrite G. lia.
Qed.

Lemma keyword_points_table (n : nat) :
  keyword_points (Z.of_nat n) = keyword_table n.
Proof.
  do 5 (destruct n as [|n]; [reflexivity|]).
  unfold keyword_points, keyword_table.
  destruct (Z.eqb_spec (Z.of_nat (S (S (S (S (S n)))))) 0); [lia|].
  destruct (Z.leb_spec (Z.of_nat (S (S (S (S (S n)))))) 2); [lia|].
  destruct (Z.leb_spec (Z.of_nat (S (S (S (S (S n)))))) 4); [lia|].
  reflexivity.
Qed.

End Factors.

(** ** The total *)

(** C1. For every engine and every tender, [calculate_score] returns a
    value between 0 and 100, both included. *)
Theorem calculate_score_range (self : ScoringEngine) (t : TenderDB) :
  0 <= calculate_score self t <= 100.
Proof. unfold calculate_score. lia. Qed.

Lemma clamp_max_min (x : Z) : clamp 0 100 x = Z.max 0 (Z.min 100 x).
Proof.
  unfold clamp.
  destruct (Z.ltb_spec x 0); [lia|].
  destruct (Z.ltb_spec 100 x); lia.
Qed.

Lemma sum_values_breakdown (self : ScoringEngine) (t : TenderDB) :
  sum_values (breakdown (explain_score self t)) = raw_score self t.
Proof. unfold sum_values, explain_score, raw_score. simpl. lia. Qed.

(** C2. [explain_score] returns a total equal to [calculate_score]; its
    breakdown has exactly the keys budget, country, sector, keywords,
    tender_type and status, each holding that factor's value; and the sum
    of the six values, clamped to [[0, 100]], is the total. *)
Theorem explain_score_consistent (self : ScoringEngine) (t : TenderDB) :
  let e := explain_score self t in
  total e = calculate_score self t
  /\ map fst (breakdown e)
     = ["budget"; "country"; "sector"; "keywords"; "tender_type"; "status"]
  /\ dict_get "budget" (breakdown e)
     = Some (_score_budget (budget t) (currency t))
  /\ dict_get "country" (breakdown e) = Some (_score_country self (country t))
  /\ dict_get "sector" (breakdown e) = Some (_score_sector self (sector t))
  /\ dict_get "keywords" (breakdown e)
     = Some (_score_keywords self (keywords t) (description t))
  /\ dict_get "tender_type" (breakdown e)
     = Some (_score_tender_type (tender_type t))
  /\ dict_get "status" (breakdown e) = Some (_score_status (status t))
  /\ clamp 0 100 (sum_values (breakdown e)) = total e.
Proof.
  cbv zeta. repeat split; try reflexivity.
  rewrite sum_values_breakdown, clamp_max_min. reflexivity.
Qed.

(** ** The budget factor *)

Lemma _score_budget_finite_monotone (p q : Q) (cur : string) :
  (p <= q)%Q ->
  _score_budget (Some (Finite p)) cur <= _score_budget (Some (Finite q)) cur.
Proof. intros H. budget_tests; solve [lia | lra]. Qed.

Lemma _score_budget_bounds (b : option pyfloat) (cur : string) :
  0 <= _score_budget b cur <= 30.
Proof. pose proof (_score_budget_values b cur) as H. simpl in H. lia. Qed.

(** C3. The budget factor is the step function of the tiers: a missing or
    zero budget gives 0, a budget below 10,000 gives 0, from 10,000 and
    below 50,000 gives 5, from 50,000 and below 100,000 gives 15, from
    100,000 and below 500,000 gives 25, from 500,000 on gives 30; the four
    boundaries belong to the upper tier and 9,999 gives 0; and the factor
    never decreases when the budget grows. *)
Theorem budget_factor_tiers (cur : string) :
  _score_budget None cur = 0
  /\ (forall q, (q == 0)%Q -> _score_budget (Some (Finite q)) cur = 0)
  /\ (forall q, (q < 10000)%Q -> _score_budget (Some (Finite q)) cur = 0)
  /\ (forall q, (10000 <= q)%Q -> (q < 50000)%Q ->
                _score_budget (Some (Finite q)) cur = 5)
  /\ (forall q, (50000 <= q)%Q -> (q < 100000)%Q ->
                _score_budget (Some (Finite q)) cur = 15)
  /\ (forall q, (100000 <= q)%Q -> (q < 500000)%Q ->
                _score_budget (Some (Finite q)) cur = 25)
  /\ (forall q, (500000 <= q)%Q -> _score_budget (Some (Finite q)) cur = 30)
  /\ _score_budget (Some NegInf) cur = 0
  /\ _score_budget (Some PosInf) cur = 30
  /\ _score_budget (Some (Finite 9999)) cur = 0
  /\ _score_budget (Some (Finite 10000)) cur = 5
  /\ _score_budget (Some (Finite 50000)) cur = 15
  /\ _score_budget (Some (Finite 100000)) cur = 25
  /\ _score_budget (Some (Finite 500000)) cur = 30
  /\ (forall x y, PyFloat.le x y ->
                  _score_budget (Some x) cur <= _score_budget (Some y) cur).
Proof.
  repeat match goal with |- _ /\ _ => split end; try reflexivity.
  - intros q H. budget_tests; solve [reflexivity | lra].
  - intros q H. budget_tests; solve [reflexivity | lra].
  - intros q H1 H2. budget_tests; solve [reflexivity | lra].
  - intros q H1 H2. budget_tests; solve [reflexivity | lra].
  - intros q H1 H2. budget_tests; solve [reflexivity | lra].
  - intros q H. budget_tests; solve [reflexivity | lra].
  - intros x y H.
    destruct x as [p| | |], y as [q| | |]; simpl in H; try contradiction.
    + now apply _score_budget_finite_monotone.
    + change (_score_budget (Some PosInf) cur) with 30.
      apply _score_budget_bounds.
    + change (_score_budget (Some PosInf) cur) with 30. lia.
    + change (_score_budget (Some NegInf) cur) with 0.
      apply _score_budget_bounds.
    + change (_score_budget (Some NegInf) cur) with 0.
      change (_score_budget (Some PosInf) cur) with 30. lia.
    + lia.
Qed.

(** The tiers and the order, at budgets of every tier. *)
Lemma budget_factor_tiers_witness :
  _score_budget (Some (Finite 0)) "EUR" = 0
  /\ _score_budget (Some (Finite (19999 # 2))) "EUR" = 0
  /\ _score_budget (Some (Finite 49999)) "EUR" = 5
  /\ _score_budget (Some (Finite 99999)) "EUR" = 15
  /\ _score_budget (Some (Finite 499999)) "EUR" = 25
  /\ _score_budget (Some (Finite 750000)) "EUR" = 30
  /\ _score_budget (Some (Finite 49999)) "EUR"
     <= _score_budget (Some (Finite 50000)) "EUR".
Proof.
  destruct (budget_factor_tiers "EUR")
    as (_ & Hz & H0 & H5 & H15 & H25 & H30 & _ & _ & _ & _ & _ & _ & _ & Hm).
  repeat match goal with |- _ /\ _ => split end.
  - apply Hz. reflexivity.
  - apply H0. reflexivity.
  - apply H5; [discriminate | reflexivity].
  - apply H15; [discriminate | reflexivity].
  - apply H25; [discriminate | reflexivity].
  - apply H30. discriminate.
  - apply Hm. simpl. discriminate.
Defined.

(** ** The keyword factor *)

Lemma keyword_text_parts (kw desc : option string) :
  keyword_text kw desc = text_part kw ++ text_part desc.
Proof.
  unfold keyword_text, text_part.
  destruct kw as [[|a k]|], desc as [[|b d]|]; simpl; try reflexivity.
  all: now rewrite append_empty_r.
Qed.








(** ** The country factor *)

Lemma priority_country_nocase (self : ScoringEngine) (c : string) :
  PyStr.mem (PyStr.upper c) (map PyStr.upper (PRIORITY_COUNTRIES self)) = true
  <-> exists p, In p (PRIORITY_COUNTRIES self) /\ PyStr.eq_nocase c p = true.
Proof.
  unfold PyStr.mem. rewrite existsb_exists. split.
  - intros [u [Hu E]]. apply in_map_iff in Hu. destruct Hu as [p [<- Hp]].
    exists p. now rewrite <- upper_eq_nocase.
  - intros [p [Hp E]]. exists (PyStr.upper p). split.
    + now apply in_map.
    + now rewrite upper_eq_nocase.
Qed.

Lemma eq_nocase_empty (p : string) : PyStr.eq_nocase "" p = true -> p = "".
Proof. destruct p; simpl; congruence. Qed.

(** C5, as the code has it.  For every engine and every country string the
    country factor is 20 when the code equals, ASCII letter case apart, a
    member of the configured priority list; for an ASCII code and an ASCII
    list it is 5 otherwise; it is never 0; "es" and "ES" get the same
    factor; and the empty string gets 5 unless the configured list itself
    holds the empty string. *)
Theorem country_factor_case_insensitive (self : ScoringEngine) (c : string) :
  ((exists p, In p (PRIORITY_COUNTRIES self) /\ PyStr.eq_nocase c p = true) ->
   _score_country self c = 20)
  /\ (is_ascii c = true ->
      all_ascii_entries (PRIORITY_COUNTRIES self) ->
      ~ (exists p, In p (PRIORITY_COUNTRIES self)
                   /\ PyStr.eq_nocase c p = true) ->
      _score_country self c = 5)
  /\ _score_country self c <> 0
  /\ _score_country self "es" = _score_country self "ES"
  /\ (~ In "" (PRIORITY_COUNTRIES self) -> _score_country self "" = 5).
Proof.
  assert (G : forall x,
             ~ (exists p, In p (PRIORITY_COUNTRIES self)
                          /\ PyStr.eq_nocase x p = true) ->
             _score_country self x = 5).
  { intros x H. unfold _score_country.
    destruct (PyStr.mem _ _) eqn:E; [|reflexivity].
    apply priority_country_nocase in E. contradiction. }
  repeat match goal with |- _ /\ _ => split end.
  - intros H. apply priority_country_nocase in H.
    unfold _score_country. now rewrite H.
  - intros _ _. apply G.
  - destruct (_score_country_values self c) as [E | E]; rewrite E; lia.
  - reflexivity.
  - intros H. apply G. intros [p [Hp E]].
    apply eq_nocase_empty in E. now subst.
Qed.

(** The default engine on "es", on "BR" and on the empty string. *)
Lemma country_factor_case_insensitive_witness :
  _score_country default_engine "es" = 20
  /\ _score_country default_engine "BR" = 5
  /\ _score_country default_engine "" = 5.
Proof.
  split; [|split].
  - destruct (country_factor_case_insensitive default_engine "es")
      as (H & _).
    apply H. exists "ES". split; [simpl; tauto | reflexivity].
  - destruct (country_factor_case_insensitive default_engine "BR")
      as (_ & H & _).
    apply H; [reflexivity | repeat constructor |].
    intros [p [Hp E]]. simpl in Hp.
    repeat (destruct Hp as [<- | Hp]; [discriminate|]). exact Hp.
  - destruct (country_factor_case_insensitive default_engine "")
      as (_ & _ & _ & _ & H).
    apply H. simpl. intros G.
    repeat (destruct G as [G | G]; [discriminate|]). exact G.
Defined.

(** C5, as stated, fails: an engine built with the priority list that holds
    the empty string gives the empty country code 20, not 5. *)
Lemma country_empty_code_counterexample :
  PRIORITY_COUNTRIES empty_code_engine = [""]
  /\ _score_country empty_code_engine "" = 20
  /\ _score_country empty_code_engine "" <> 5.
Proof.
  split; [reflexivity | split; [reflexivity | discriminate]].
Qed.

(** ** The contract-type factor and the least total *)

Lemma _score_tender_type_negative (ty : option string) :
  _score_tender_type ty < 0 ->
  _score_tender_type ty = -5
  /\ (ty = Some TenderType.WORKS \/ ty = Some TenderType.CONCESSION).
Proof.
  unfold _score_tender_type. destruct (negb _); [lia|].
  destruct ty as [ty|]; [|lia].
  destruct (PyStr.mem ty LESS_RELEVANT_TYPES) eqn:E.
  - intros _. split; [reflexivity|].
    apply mem_In in E. simpl in E.
    destruct E as [<- | [<- | []]]; auto.
  - destruct (PyStr.mem ty [TenderType.SERVICES; TenderType.SUPPLIES]); lia.
Qed.

(** C6, as the code has it.  For a tender of type WORKS whose budget,
    sector, keyword and status factors are 0, the sum before clamping is
    the country factor minus 5; it is not negative, the total equals it,
    and both are 0 when the country is not a priority country.  The
    penalty of WORKS and of CONCESSION is -5, SERVICES and SUPPLIES give
    10, a missing type gives 0. *)
Theorem works_penalty_total (self : ScoringEngine) (t : TenderDB) :
  tender_type t = Some TenderType.WORKS ->
  _score_budget (budget t) (currency t) = 0 ->
  _score_sector self (sector t) = 0 ->
  _score_keywords self (keywords t) (description t) = 0 ->
  _score_status (status t) = 0 ->
  raw_score self t = _score_country self (country t) - 5
  /\ 0 <= raw_score self t
  /\ calculate_score self t = raw_score self t
  /\ (_score_country self (country t) = 5 ->
      raw_score self t = 0 /\ calculate_score self t = 0)
  /\ _score_tender_type (Some TenderType.WORKS) = -5
  /\ _score_tender_type (Some TenderType.CONCESSION) = -5
  /\ _score_tender_type (Some TenderType.SERVICES) = 10
  /\ _score_tender_type (Some TenderType.SUPPLIES) = 10
  /\ _score_tender_type None = 0.
Proof.
  intros Hty Hb Hs Hk Hst.
  assert (R : raw_score self t = _score_country self (country t) - 5).
  { unfold raw_score. rewrite Hty, Hb, Hs, Hk, Hst.
    change (_score_tender_type (Some TenderType.WORKS)) with (-5). lia. }
  pose proof (raw_score_bounds self t) as B.
  repeat match goal with |- _ /\ _ => split end; try reflexivity.
  - exact R.
  - lia.
  - unfold calculate_score. lia.
  - intros Hc. unfold calculate_score. lia.
Qed.

(** The WORKS tender with nothing else filled in, under the default
    engine. *)
Lemma works_penalty_total_witness :
  raw_score default_engine works_tender = 0
  /\ calculate_score default_engine works_tender = 0.
Proof.
  apply (works_penalty_total default_engine works_tender);
    reflexivity.
Defined.

(** C6, as stated, fails: the WORKS tender with nothing else filled in has
    a country factor of 5 and a sum of 0 before clamping; no tender has a
    country factor of 0, and no sum before clamping is negative. *)
Lemma works_negative_sum_counterexample :
  tender_type works_tender = Some TenderType.WORKS
  /\ _score_budget (budget works_tender) (currency works_tender) = 0
  /\ _score_sector default_engine (sector works_tender) = 0
  /\ _score_keywords default_engine
       (keywords works_tender) (description works_tender) = 0
  /\ _score_status (status works_tender) = 0
  /\ _score_country default_engine (country works_tender) = 5
  /\ raw_score default_engine works_tender = 0
  /\ ~ (exists self t, _score_country self (country t) = 0)
  /\ ~ (exists self t, raw_score self t < 0).
Proof.
  repeat match goal with |- _ /\ _ => split end; try reflexivity.
  - intros [self [t H]].
    destruct (_score_country_values self (country t)) as [E | E]; lia.
  - intros [self [t H]]. pose proof (raw_score_bounds self t). lia.
Qed.

(** ** The end-to-end example *)

(** C7. Under the default configuration the tender with budget 600000,
    country ES, sector software development, keywords cloud, api, saas,
    an empty description, type SERVICES and status open gets 30 for the
    budget, 20 for the country, 20 for the sector, 10 for the keywords
    (three matches: cloud, api and saas), 10 for the type and 5 for the
    status, and the total 95. *)
Theorem end_to_end_example :
  _score_budget (budget example_tender) (currency example_tender) = 30
  /\ _score_country default_engine (country example_tender) = 20
  /\ _score_sector default_engine (sector example_tender) = 20
  /\ found_keywords default_engine
       (keyword_text (keywords example_tender) (description example_tender))
     = ["cloud"; "api"; "saas"]
  /\ _score_keywords default_engine
       (keywords example_tender) (description example_tender) = 10
  /\ _score_tender_type (tender_type example_tender) = 10
  /\ _score_status (status example_tender) = 5
  /\ raw_score default_engine example_tender = 95
  /\ calculate_score default_engine example_tender = 95
  /\ total (explain_score default_engine example_tender) = 95.
Proof.
  repeat match goal with |- _ /\ _ => split end; vm_compute; reflexivity.
Qed.

(** ** Construction *)

Lemma override_with_default (o : option (list string)) (d : list string) :
  d <> [] -> override (with_default o d) d = override o d.
Proof.
  intros H. destruct o as [[|x l]|]; simpl; destruct d; congruence.
Qed.

Lemma __init__with_default (a b c : option (list string)) :
  __init__ (with_default a Defaults.PRIORITY_COUNTRIES)
           (with_default b Defaults.TARGET_SECTORS)
           (with_default c Defaults.RELEVANT_KEYWORDS)
  = __init__ a b c.
Proof.
  unfold __init__. now rewrite !override_with_default by discriminate.
Qed.

(** C8. Construction returns an engine for every choice of the three
    overrides, each list of the engine being the override when it is given
    and not empty and the built-in list otherwise; and an engine built
    with an override omitted or empty is the engine built with the
    built-in list in its place, so both give every tender the same score
    and the same explanation. *)
Theorem construction_defaults (a b c : option (list string)) (t : TenderDB) :
  (exists e, __init__ a b c = e
             /\ PRIORITY_COUNTRIES e
                = (if omitted a then Defaults.PRIORITY_COUNTRIES
                   else match a with Some l => l | None => [] end)
             /\ TARGET_SECTORS e
                = (if omitted b then Defaults.TARGET_SECTORS
                   else match b with Some l => l | None => [] end)
             /\ RELEVANT_KEYWORDS e
                = (if omitted c then Defaults.RELEVANT_KEYWORDS
                   else match c with Some l => l | None => [] end))
  /\ calculate_score (__init__ None b c) t
     = calculate_score (__init__ (Some Defaults.PRIORITY_COUNTRIES) b c) t
  /\ calculate_score (__init__ (Some []) b c) t
     = calculate_score (__init__ (Some Defaults.PRIORITY_COUNTRIES) b c) t
  /\ calculate_score (__init__ a None c) t
     = calculate_score (__init__ a (Some Defaults.TARGET_SECTORS) c) t
  /\ calculate_score (__init__ a (Some []) c) t
     = calculate_score (__init__ a (Some Defaults.TARGET_SECTORS) c) t
  /\ calculate_score (__init__ a b None) t
     = calculate_score (__init__ a b (Some Defaults.RELEVANT_KEYWORDS)) t
  /\ calculate_score (__init__ a b (Some [])) t
     = calculate_score (__init__ a b (Some Defaults.RELEVANT_KEYWORDS)) t
  /\ calculate_score (__init__ a b c) t
     = calculate_score
         (__init__ (with_default a Defaults.PRIORITY_COUNTRIES)
                   (with_default b Defaults.TARGET_SECTORS)
                   (with_default c Defaults.RELEVANT_KEYWORDS)) t
  /\ explain_score (__init__ a b c) t
     = explain_score
         (__init__ (with_default a Defaults.PRIORITY_COUNTRIES)
                   (with_default b Defaults.TARGET_SECTORS)
                   (with_default c Defaults.RELEVANT_KEYWORDS)) t.
Proof.
  repeat match goal with |- _ /\ _ => split end; try reflexivity.
  - exists (__init__ a b c).
    destruct a as [[|? ?]|], b as [[|? ?]|], c as [[|? ?]|];
      repeat split.
  - now rewrite __init__with_default.
  - now rewrite __init__with_default.
Qed.

(** ** What the score reads *)

(** C9. The score is a function of the engine and of the budget, country,
    sector, keywords, description, contract type and status of the tender:
    two tenders that agree on these seven get the same score, the same six
    factors and the same explanation, whatever their title, CPV code,
    currency, deadline, publication date and other columns are. *)
Theorem calculate_score_reads_seven_fields
  (self : ScoringEngine) (t1 t2 : TenderDB) :
  budget t1 = budget t2 ->
  country t1 = country t2 ->
  sector t1 = sector t2 ->
  keywords t1 = keywords t2 ->
  description t1 = description t2 ->
  tender_type t1 = tender_type t2 ->
  status t1 = status t2 ->
  calculate_score self t1 = calculate_score self t2
  /\ explain_score self t1 = explain_score self t2.
Proof.
  intros Hb Hc Hs Hk Hd Hty Hst.
  unfold explain_score, calculate_score, raw_score, _score_budget.
  rewrite Hb, Hc, Hs, Hk, Hd, Hty, Hst. split; reflexivity.
Qed.

(** Two tenders that differ in every column the score does not read. *)
Lemma calculate_score_reads_seven_fields_witness :
  (id example_tender <> id example_tender_relabelled
   /\ title example_tender <> title example_tender_relabelled
   /\ cpv_code example_tender <> cpv_code example_tender_relabelled
   /\ currency example_tender <> currency example_tender_relabelled
   /\ deadline example_tender <> deadline example_tender_relabelled
   /\ published_date example_tender
      <> published_date example_tender_relabelled)
  /\ calculate_score default_engine example_tender
     = calculate_score default_engine example_tender_relabelled
  /\ explain_score default_engine example_tender
     = explain_score default_engine example_tender_relabelled.
Proof.
  split.
  - repeat split; discriminate.
  - apply (calculate_score_reads_seven_fields
             default_engine example_tender example_tender_relabelled);
      reflexivity.
Defined.

(** ** The sum before clamping *)

(** C10. For every engine and every tender the sum of the six factors is
    already between 0 and 100 before clamping: the country factor is at
    least 5, the contract-type factor is the only one that can be negative
    and is then -5 (WORKS or CONCESSION), every other factor is at least 0,
    and the factors are at most 30, 20, 20, 15, 10 and 5.  So the clamp
    changes nothing: the total is the plain sum of the breakdown.  Both
    ends are reached: 0 by the WORKS tender with nothing else filled in,
    100 by a tender at the top of every factor. *)
Theorem raw_score_needs_no_clamp (self : ScoringEngine) (t : TenderDB) :
  0 <= raw_score self t <= 100
  /\ calculate_score self t = raw_score self t
  /\ total (explain_score self t)
     = sum_values (breakdown (explain_score self t))
  /\ 0 <= _score_budget (budget t) (currency t) <= 30
  /\ 5 <= _score_country self (country t) <= 20
  /\ 0 <= _score_sector self (sector t) <= 20
  /\ 0 <= _score_keywords self (keywords t) (description t) <= 15
  /\ -5 <= _score_tender_type (tender_type t) <= 10
  /\ 0 <= _score_status (status t) <= 5
  /\ (_score_tender_type (tender_type t) < 0 ->
      _score_tender_type (tender_type t) = -5
      /\ (tender_type t = Some TenderType.WORKS
          \/ tender_type t = Some TenderType.CONCESSION))
  /\ raw_score default_engine works_tender = 0
  /\ raw_score default_engine best_tender = 100.
Proof.
  pose proof (raw_score_bounds self t) as B.
  pose proof (_score_budget_values (budget t) (currency t)) as Hb.
  pose proof (_score_country_values self (country t)) as Hc.
  pose proof (_score_sector_values self (sector t)) as Hs.
  pose proof (_score_keywords_values self (keywords t) (description t)) as Hk.
  pose proof (_score_tender_type_values (tender_type t)) as Ht.
  pose proof (_score_status_values (status t)) as Hst.
  simpl in Hb, Hs, Hk, Ht.
  repeat match goal with |- _ /\ _ => split end; try lia.
  - unfold calculate_score. lia.
  - rewrite sum_values_breakdown. simpl. unfold calculate_score. lia.
  - apply _score_tender_type_negative.
  - vm_compute. reflexivity.
  - vm_compute. reflexivity.
Qed.

(** The CONCESSION tender: the only negative factor, and a sum of 0. *)
Lemma raw_score_needs_no_clamp_witness :
  _score_tender_type (Some TenderType.CONCESSION) = -5
  /\ (Some TenderType.CONCESSION = Some TenderType.WORKS
      \/ Some TenderType.CONCESSION = Some TenderType.CONCESSION).
Proof.
  destruct (raw_score_needs_no_clamp default_engine
              {| id := 5; title := "Motorway concession";
                 description := None; country := "BR"; sector := "";
                 cpv_code := None; budget := None; currency := "EUR";
                 status := TenderStatus.CLOSED;
                 tender_type := Some TenderType.CONCESSION;
                 deadline := None; published_date := None;
                 keywords := None; score := None;
                 created_at := None; updated_at := None |})
    as (_ & _ & _ & _ & _ & _ & _ & _ & _ & H & _).
  apply H. reflexivity.
Defined.

(** ** More on strings *)

Section CaseFacts.

Import PyStr.

Lemma lower_ascii_same_letter (a b : ascii) :
  Ascii.eqb (lower_ascii a) (lower_ascii b) = same_letter a b.
Proof.
  assert (H : forallb (fun x => forallb (fun y =>
                Bool.eqb (Ascii.eqb (lower_ascii x) (lower_ascii y))
                         (same_letter x y)) all_ascii) all_ascii = true)
    by (vm_compute; reflexivity).
  rewrite forallb_forall in H.
  specialize (H a (all_ascii_complete a)).
  rewrite forallb_forall in H.
  specialize (H b (all_ascii_complete b)).
  now apply eqb_prop.
Qed.

Lemma lower_eq_nocase (s t : string) :
  String.eqb (lower s) (lower t) = eq_nocase s t.
Proof.
  revert t; induction s as [|a s IH]; intros [|b t]; simpl; try reflexivity.
  now rewrite lower_ascii_same_letter, IH.
Qed.

Lemma eq_nocase_lower (s t : string) :
  eq_nocase s t = true -> lower s = lower t.
Proof. rewrite <- lower_eq_nocase. apply String.eqb_eq. Qed.

Lemma eq_nocase_upper (s t : string) :
  eq_nocase s t = true -> upper s = upper t.
Proof. rewrite <- upper_eq_nocase. apply String.eqb_eq. Qed.

Lemma eq_nocase_truthy (s t : string) :
  eq_nocase s t = true -> truthy s = truthy t.
Proof. destruct s, t; simpl; congruence. Qed.

Lemma lower_ascii_not_upper (c : ascii) : is_upper (lower_ascii c) = false.
Proof.
  assert (H : forallb (fun x => negb (is_upper (lower_ascii x))) all_ascii
              = true) by (vm_compute; reflexivity).
  rewrite forallb_forall in H.
  specialize (H c (all_ascii_complete c)).
  now apply negb_true_iff in H.
Qed.

Lemma has_upper_lower (s : string) : has_upper (lower s) = false.
Proof.
  unfold has_upper. induction s as [|c s IH]; simpl; [reflexivity|].
  now rewrite lower_ascii_not_upper, IH.
Qed.

Lemma has_upper_app (s t : string) :
  has_upper (s ++ t) = has_upper s || has_upper t.
Proof.
  unfold has_upper. induction s as [|c s IH]; simpl; [reflexivity|].
  now rewrite IH, orb_assoc.
Qed.

Lemma has_upper_not_in_lower (target s : string) :
  has_upper target = true -> contains target (lower s) = false.
Proof.
  intros H. destruct (contains target (lower s)) eqn:E; [|reflexivity].
  apply contains_Substring in E. destruct E as [pre [post E]].
  pose proof (has_upper_lower s) as L.
  rewrite E, !has_upper_app, H in L.
  now rewrite orb_true_r in L.
Qed.

Lemma append_assoc (a b c : string) : (a ++ b) ++ c = a ++ (b ++ c).
Proof. induction a as [|x a IH]; simpl; [reflexivity | now rewrite IH]. Qed.

Lemma Substring_app_r (n h h' : string) :
  Substring n h -> Substring n (h ++ h').
Proof.
  intros [pre [post E]]. exists pre, (post ++ h').
  now rewrite E, !append_assoc.
Qed.

Lemma Substring_app_l (n h h' : string) :
  Substring n h -> Substring n (h' ++ h).
Proof.
  intros [pre [post E]]. exists (h' ++ pre), post.
  now rewrite E, !append_assoc.
Qed.

Lemma contains_empty (h : string) : contains "" h = true.
Proof. apply contains_Substring. exists "", h. reflexivity. Qed.

End CaseFacts.

(** ** The sector factor *)

(** X1. The sector factor is 0 exactly for the empty sector; for any other
    ASCII sector it is 20 when some configured target occurs, as it is
    written, in the lower-cased sector, and 5 when none does. *)
Theorem sector_factor_by_substring (self : ScoringEngine) (s : string) :
  (_score_sector self s = 0 <-> s = "")
  /\ (is_ascii s = true -> s <> "" ->
      (exists target, In target (TARGET_SECTORS self)
                      /\ Substring target (PyStr.lower s)) ->
      _score_sector self s = 20)
  /\ (is_ascii s = true -> s <> "" ->
      ~ (exists target, In target (TARGET_SECTORS self)
                        /\ Substring target (PyStr.lower s)) ->
      _score_sector self s = 5).
Proof.
  assert (E : existsb (fun target => PyStr.contains target (PyStr.lower s))
                      (TARGET_SECTORS self) = true
              <-> exists target, In target (TARGET_SECTORS self)
                                 /\ Substring target (PyStr.lower s)).
  { rewrite existsb_exists.
    split; intros [x [Hx H]]; exists x; split; trivial;
      now apply contains_Substring. }
  unfold _score_sector. destruct s as [|c s]; cbn [PyStr.truthy negb].
  - repeat split; congruence.
  - destruct (existsb _ _).
    + repeat split; try discriminate. intros _ _ H. exfalso.
      apply H, E. reflexivity.
    + repeat split; try discriminate. intros _ _ H.
      apply E in H. discriminate.
Qed.

(** A sector that holds a target and one that holds none. *)
Lemma sector_factor_by_substring_witness :
  _score_sector default_engine "Digital Transformation" = 20
  /\ _score_sector default_engine "healthcare" = 5.
Proof.
  split.
  - destruct (sector_factor_by_substring default_engine
                "Digital Transformation") as (_ & H & _).
    apply H; [reflexivity | discriminate |].
    exists "digital". split; [simpl; tauto|].
    exists "", " transformation". reflexivity.
  - destruct (sector_factor_by_substring default_engine "healthcare")
      as (_ & _ & H).
    apply H; [reflexivity | discriminate |].
    intros [target [Hin Hs]]. apply contains_Substring in Hs.
    simpl in Hin.
    repeat (destruct Hin as [<- | Hin]; [vm_compute in Hs; discriminate|]).
    exact Hin.
Defined.

(** X2. The targets are compared as they are written with the lower-cased
    sector: a target that holds a capital letter is found in no sector, and
    an engine whose targets all hold one gives every non-empty sector 5. *)
Theorem sector_target_with_capital_never_matches
  (self : ScoringEngine) (s : string) :
  (forall target, has_upper target = true ->
                  PyStr.contains target (PyStr.lower s) = false)
  /\ (s <> "" ->
      (forall target, In target (TARGET_SECTORS self) ->
                      has_upper target = true) ->
      _score_sector self s = 5).
Proof.
  split.
  - intros target. apply has_upper_not_in_lower.
  - intros Hs H. unfold _score_sector.
    destruct s as [|c s]; [congruence|]. cbn [PyStr.truthy negb].
    destruct (existsb _ _) eqn:E; [|reflexivity].
    apply existsb_exists in E. destruct E as [target [Hin E]].
    rewrite has_upper_not_in_lower in E by now apply H. discriminate.
Qed.

(** The target IT against the sector IT services. *)
Lemma sector_target_with_capital_never_matches_witness :
  PyStr.contains "IT" (PyStr.lower "IT services") = false
  /\ _score_sector (__init__ None (Some ["IT"]) None) "IT services" = 5.
Proof.
  destruct (sector_target_with_capital_never_matches
              (__init__ None (Some ["IT"]) None) "IT services") as (H1 & H2).
  split.
  - apply H1. reflexivity.
  - apply H2; [discriminate|].
    intros target [<- | []]. reflexivity.
Defined.

(** ** Lists of configured terms *)

Section ListFacts.

Context {A : Type}.

Lemma filter_length_mono (f g : A -> bool) (l : list A) :
  (forall x, In x l -> f x = true -> g x = true) ->
  (List.length (filter f l) <= List.length (filter g l))%nat.
Proof.
  induction l as [|x l IH]; intros H; simpl; [lia|].
  assert (IH' := IH (fun y Hy => H y (or_intror Hy))).
  destruct (f x) eqn:Ef.
  - rewrite (H x (or_introl eq_refl) Ef). simpl. lia.
  - destruct (g x); simpl; lia.
Qed.

Lemma filter_length_Permutation (f : A -> bool) (l l' : list A) :
  Permutation l l' ->
  List.length (filter f l) = List.length (filter f l').
Proof.
  induction 1 as [|x l l' _ IH|x y l|l l' l'' _ IH1 _ IH2]; simpl.
  - reflexivity.
  - destruct (f x); simpl; congruence.
  - destruct (f x), (f y); reflexivity.
  - congruence.
Qed.

Lemma existsb_Permutation (f : A -> bool) (l l' : list A) :
  Permutation l l' -> existsb f l = existsb f l'.
Proof.
  induction 1 as [|x l l' _ IH|x y l|l l' l'' _ IH1 _ IH2]; simpl.
  - reflexivity.
  - now rewrite IH.
  - destruct (f x), (f y); reflexivity.
  - congruence.
Qed.

Lemma existsb_incl (f : A -> bool) (l l' : list A) :
  incl l l' -> existsb f l = true -> existsb f l' = true.
Proof.
  intros H E. apply existsb_exists in E. destruct E as [x [Hx E]].
  apply existsb_exists. exists x. split; [now apply H | exact E].
Qed.

End ListFacts.

Lemma keyword_table_mono (n m : nat) :
  (n <= m)%nat -> keyword_table n <= keyword_table m.
Proof.
  intros H.
  do 5 (destruct n as [|n]; [do 5 (destruct m as [|m]; [simpl; lia|]);
                             simpl; lia|]).
  do 5 (destruct m as [|m]; [lia|]). simpl. lia.
Qed.

Lemma keyword_table_nonneg (n : nat) : 0 <= keyword_table n.
Proof. do 5 (destruct n as [|n]; [simpl; lia|]). simpl. lia. Qed.

Lemma _score_keywords_found (self : ScoringEngine) (kw desc : option string) :
  _score_keywords self kw desc
  = if PyStr.truthy (keyword_text kw desc)
    then keyword_table
           (List.length (found_keywords self (keyword_text kw desc)))
    else 0.
Proof.
  unfold _score_keywords. destruct (PyStr.truthy _); cbn [negb].
  - now rewrite count_matches_filter, keyword_points_table.
  - reflexivity.
Qed.

Lemma _score_keywords_nonneg (self : ScoringEngine) (kw desc : option string) :
  0 <= _score_keywords self kw desc.
Proof.
  pose proof (_score_keywords_values self kw desc) as H. simpl in H. lia.
Qed.

Lemma _score_budget_monotone (x y : pyfloat) (cur cur' : string) :
  PyFloat.le x y -> _score_budget (Some x) cur <= _score_budget (Some y) cur'.
Proof.
  intros H.
  change (_score_budget (Some y) cur') with (_score_budget (Some y) cur).
  destruct x as [p| | |], y as [q| | |]; simpl in H; try contradiction.
  - now apply _score_budget_finite_monotone.
  - change (_score_budget (Some PosInf) cur) with 30.
    apply _score_budget_bounds.
  - apply Z.le_refl.
  - change (_score_budget (Some NegInf) cur) with 0.
    apply _score_budget_bounds.
  - change (_score_budget (Some NegInf) cur) with 0.
    change (_score_budget (Some PosInf) cur) with 30. lia.
  - apply Z.le_refl.
Qed.

(** ** The score and letter case *)

Lemma keyword_text_nocase (k1 k2 d1 d2 : option string) :
  opt_eq_nocase k1 k2 = true -> opt_eq_nocase d1 d2 = true ->
  keyword_text k1 d1 = keyword_text k2 d2.
Proof.
  intros Hk Hd. rewrite !keyword_text_parts.
  assert (G : forall o1 o2, opt_eq_nocase o1 o2 = true ->
                            text_part o1 = text_part o2).
  { intros [s|] [t|] H; simpl in H; try discriminate; [|reflexivity].
    pose proof (eq_nocase_lower _ _ H) as L.
    destruct s, t; simpl in H; try discriminate; [reflexivity|].
    unfold text_part. now rewrite L. }
  now rewrite (G _ _ Hk), (G _ _ Hd).
Qed.

(** X3. The score reads the country, the sector, the keywords and the
    description without regard to ASCII letter case: two tenders that
    differ in these four only by letter case, and agree on budget, contract
    type and status, get the same score and the same breakdown. *)
Theorem score_ignores_letter_case
  (self : ScoringEngine) (t1 t2 : TenderDB) :
  PyStr.eq_nocase (country t1) (country t2) = true ->
  PyStr.eq_nocase (sector t1) (sector t2) = true ->
  opt_eq_nocase (keywords t1) (keywords t2) = true ->
  opt_eq_nocase (description t1) (description t2) = true ->
  budget t1 = budget t2 ->
  tender_type t1 = tender_type t2 ->
  status t1 = status t2 ->
  calculate_score self t1 = calculate_score self t2
  /\ explain_score self t1 = explain_score self t2.
Proof.
  intros Hc Hs Hk Hd Hb Hty Hst.
  assert (Ec : _score_country self (country t1)
               = _score_country self (country t2)).
  { unfold _score_country. now rewrite (eq_nocase_upper _ _ Hc). }
  assert (Es : _score_sector self (sector t1)
               = _score_sector self (sector t2)).
  { unfold _score_sector.
    now rewrite (eq_nocase_truthy _ _ Hs), (eq_nocase_lower _ _ Hs). }
  assert (Ek : _score_keywords self (keywords t1) (description t1)
               = _score_keywords self (keywords t2) (description t2)).
  { unfold _score_keywords. now rewrite (keyword_text_nocase _ _ _ _ Hk Hd). }
  unfold explain_score, calculate_score, raw_score, _score_budget.
  rewrite Ec, Es, Ek, Hb, Hty, Hst. split; reflexivity.
Qed.

(** The example tender, and the same with other capitals. *)
Lemma score_ignores_letter_case_witness :
  calculate_score default_engine example_tender
  = calculate_score default_engine
      {| id := 2; title := "Cloud Infrastructure Migration";
         description := Some ""; country := "es";
         sector := "Software Development"; cpv_code := None;
         budget := Some (Finite (600000 # 1)); currency := "EUR";
         status := "open"; tender_type := Some TenderType.SERVICES;
         deadline := None; published_date := None;
         keywords := Some "Cloud, API, SaaS"; score := None;
         created_at := None; updated_at := None |}.
Proof.
  apply score_ignores_letter_case; reflexivity.
Defined.

Lemma mem_upper_nocase (c : string) (l l' : list string) :
  Forall2 (fun p p' => PyStr.eq_nocase p p' = true) l l' ->
  PyStr.mem (PyStr.upper c) (map PyStr.upper l)
  = PyStr.mem (PyStr.upper c) (map PyStr.upper l').
Proof.
  unfold PyStr.mem.
  induction 1 as [|p p' l l' H _ IH]; simpl; [reflexivity|].
  now rewrite (eq_nocase_upper _ _ H), IH.
Qed.

Lemma found_keywords_nocase (e1 e2 : ScoringEngine) (text : string) :
  Forall2 (fun k k' => PyStr.eq_nocase k k' = true)
          (RELEVANT_KEYWORDS e1) (RELEVANT_KEYWORDS e2) ->
  List.length (found_keywords e1 text) = List.length (found_keywords e2 text).
Proof.
  unfold found_keywords.
  induction 1 as [|k k' l l' H _ IH]; simpl; [reflexivity|].
  rewrite (eq_nocase_lower _ _ H).
  destruct (PyStr.contains _ _); simpl; congruence.
Qed.

(** X4. The configured priority countries and keywords are read without
    regard to ASCII letter case: two engines whose country lists and
    keyword lists differ, entry by entry, only by letter case, and whose
    target sectors are the same, give every tender the same score. *)
Theorem configuration_ignores_letter_case
  (e1 e2 : ScoringEngine) (t : TenderDB) :
  Forall2 (fun p p' => PyStr.eq_nocase p p' = true)
          (PRIORITY_COUNTRIES e1) (PRIORITY_COUNTRIES e2) ->
  Forall2 (fun k k' => PyStr.eq_nocase k k' = true)
          (RELEVANT_KEYWORDS e1) (RELEVANT_KEYWORDS e2) ->
  TARGET_SECTORS e1 = TARGET_SECTORS e2 ->
  calculate_score e1 t = calculate_score e2 t
  /\ explain_score e1 t = explain_score e2 t.
Proof.
  intros Hc Hk Hs.
  assert (Ec : _score_country e1 (country t) = _score_country e2 (country t)).
  { unfold _score_country. now rewrite (mem_upper_nocase _ _ _ Hc). }
  assert (Es : _score_sector e1 (sector t) = _score_sector e2 (sector t)).
  { unfold _score_sector. now rewrite Hs. }
  assert (Ek : _score_keywords e1 (keywords t) (description t)
               = _score_keywords e2 (keywords t) (description t)).
  { rewrite !_score_keywords_found.
    now rewrite (found_keywords_nocase e1 e2 _ Hk). }
  unfold explain_score, calculate_score, raw_score.
  rewrite Ec, Es, Ek. split; reflexivity.
Qed.

(** The default lists against lower-cased countries and capitalised
    keywords. *)
Lemma configuration_ignores_letter_case_witness :
  calculate_score default_engine best_tender
  = calculate_score
      (__init__ (Some ["es"; "pt"; "fr"; "it"; "de"; "uk"]) None
         (Some ["Digital"; "Software"; "Cloud"; "API"; "SaaS"; "Platform";
                "Data"; "Analytics"; "AI"; "Machine Learning"; "Blockchain";
                "Cybersecurity"]))
      best_tender.
Proof.
  apply configuration_ignores_letter_case.
  - repeat constructor.
  - repeat constructor.
  - reflexivity.
Defined.

(** ** The score and the configured lists *)

Lemma found_keywords_Permutation (e1 e2 : ScoringEngine) (text : string) :
  Permutation (RELEVANT_KEYWORDS e1) (RELEVANT_KEYWORDS e2) ->
  List.length (found_keywords e1 text) = List.length (found_keywords e2 text).
Proof. unfold found_keywords. apply filter_length_Permutation. Qed.

(** X5. The order of the entries of the three configured lists does not
    matter: two engines whose lists are rearrangements of each other give
    every tender the same score and the same breakdown. *)
Theorem configuration_order_is_irrelevant
  (e1 e2 : ScoringEngine) (t : TenderDB) :
  Permutation (PRIORITY_COUNTRIES e1) (PRIORITY_COUNTRIES e2) ->
  Permutation (TARGET_SECTORS e1) (TARGET_SECTORS e2) ->
  Permutation (RELEVANT_KEYWORDS e1) (RELEVANT_KEYWORDS e2) ->
  calculate_score e1 t = calculate_score e2 t
  /\ explain_score e1 t = explain_score e2 t.
Proof.
  intros Hc Hs Hk.
  assert (Ec : _score_country e1 (country t) = _score_country e2 (country t)).
  { unfold _score_country, PyStr.mem.
    now rewrite (existsb_Permutation _ _ _ (Permutation_map PyStr.upper Hc)). }
  assert (Es : _score_sector e1 (sector t) = _score_sector e2 (sector t)).
  { unfold _score_sector. now rewrite (existsb_Permutation _ _ _ Hs). }
  assert (Ek : _score_keywords e1 (keywords t) (description t)
               = _score_keywords e2 (keywords t) (description t)).
  { rewrite !_score_keywords_found.
    now rewrite (found_keywords_Permutation e1 e2 _ Hk). }
  unfold explain_score, calculate_score, raw_score.
  rewrite Ec, Es, Ek. split; reflexivity.
Qed.

(** The default lists against the same lists turned round. *)
Lemma configuration_order_is_irrelevant_witness :
  calculate_score default_engine best_tender
  = calculate_score
      (__init__ (Some (rev Defaults.PRIORITY_COUNTRIES))
                (Some (rev Defaults.TARGET_SECTORS))
                (Some (rev Defaults.RELEVANT_KEYWORDS)))
      best_tender.
Proof.
  apply configuration_order_is_irrelevant;
    apply (Permutation_rev (A := string)).
Defined.

(** X6. Adding entries to the configured lists never lowers a score: when
    the countries and sectors of one engine are among those of another and
    its keywords are, with their repetitions, among the other's, every
    factor and the total of the first are at most those of the second. *)
Theorem larger_configuration_never_lowers
  (e1 e2 : ScoringEngine) (t : TenderDB) :
  extends e1 e2 ->
  _score_country e1 (country t) <= _score_country e2 (country t)
  /\ _score_sector e1 (sector t) <= _score_sector e2 (sector t)
  /\ _score_keywords e1 (keywords t) (description t)
     <= _score_keywords e2 (keywords t) (description t)
  /\ calculate_score e1 t <= calculate_score e2 t.
Proof.
  intros (Hc & Hs & extra & Hk).
  assert (Ec : _score_country e1 (country t) <= _score_country e2 (country t)).
  { unfold _score_country.
    destruct (PyStr.mem _ (map PyStr.upper (PRIORITY_COUNTRIES e1))) eqn:E.
    - unfold PyStr.mem in *.
      rewrite (existsb_incl _ _ _ (incl_map PyStr.upper Hc) E). lia.
    - destruct (PyStr.mem _ (map PyStr.upper (PRIORITY_COUNTRIES e2))); lia. }
  assert (Es : _score_sector e1 (sector t) <= _score_sector e2 (sector t)).
  { unfold _score_sector. destruct (negb _); [lia|].
    destruct (existsb _ (TARGET_SECTORS e1)) eqn:E.
    - rewrite (existsb_incl _ _ _ Hs E). lia.
    - destruct (existsb _ (TARGET_SECTORS e2)); lia. }
  assert (Ek : _score_keywords e1 (keywords t) (description t)
               <= _score_keywords e2 (keywords t) (description t)).
  { rewrite !_score_keywords_found. destruct (PyStr.truthy _); [|lia].
    apply keyword_table_mono. unfold found_keywords.
    rewrite (filter_length_Permutation _ _ _ Hk), filter_app, length_app.
    lia. }
  repeat match goal with |- _ /\ _ => split end; trivial.
  unfold calculate_score, raw_score. lia.
Qed.

(** The default engine against one with a country and a keyword more. *)
Lemma larger_configuration_never_lowers_witness :
  calculate_score default_engine blank_tender
  <= calculate_score
       (__init__ (Some (Defaults.PRIORITY_COUNTRIES ++ ["BR"])%list) None
                 (Some (Defaults.RELEVANT_KEYWORDS ++ ["tender"])%list))
       blank_tender.
Proof.
  apply larger_configuration_never_lowers.
  split; [|split].
  - intros x H. simpl in *. tauto.
  - apply incl_refl.
  - exists ["tender"]. apply Permutation_refl.
Defined.

Lemma found_keywords_le_configured (self : ScoringEngine) (text : string) :
  (List.length (found_keywords self text)
   <= List.length (RELEVANT_KEYWORDS self))%nat.
Proof. apply filter_length_le. Qed.

(** X7. The keyword factor is capped by the size of the configured list:
    it is at most the table value of the number of configured entries, so
    an engine with one or two keywords gives at most 5 and one with three
    or four at most 10. *)
Theorem keywords_factor_capped_by_list
  (self : ScoringEngine) (kw desc : option string) :
  _score_keywords self kw desc
  <= keyword_table (List.length (RELEVANT_KEYWORDS self))
  /\ ((List.length (RELEVANT_KEYWORDS self) <= 2)%nat ->
      _score_keywords self kw desc <= 5)
  /\ ((List.length (RELEVANT_KEYWORDS self) <= 4)%nat ->
      _score_keywords self kw desc <= 10).
Proof.
  assert (G : forall n, (List.length (RELEVANT_KEYWORDS self) <= n)%nat ->
                        _score_keywords self kw desc <= keyword_table n).
  { intros n H. rewrite _score_keywords_found.
    destruct (PyStr.truthy _); [|apply keyword_table_nonneg].
    apply keyword_table_mono.
    pose proof (found_keywords_le_configured self (keyword_text kw desc)).
    lia. }
  split; [|split].
  - apply G. lia.
  - intros H. apply (G 2%nat H).
  - intros H. apply (G 4%nat H).
Qed.

(** Two configured keywords, both found five times over. *)
Lemma keywords_factor_capped_by_list_witness :
  _score_keywords (__init__ None None (Some ["cloud"; "api"]))
    (Some "cloud api cloud api cloud api") (Some "cloud api") <= 5
  /\ _score_keywords (__init__ None None (Some ["cloud"; "api"; "saas"]))
       (Some "cloud api saas") None <= 10.
Proof.
  split.
  - apply keywords_factor_capped_by_list. simpl. lia.
  - apply keywords_factor_capped_by_list. simpl. lia.
Defined.

(** X8. An empty string among the configured terms matches everything:
    as a keyword it counts as a match for every tender that has some
    keyword or description text, so the keyword factor is then at least 5;
    as a target sector it gives every non-empty sector 20. *)
Theorem empty_configured_term_matches_all
  (self : ScoringEngine) (kw desc : option string) (s : string) :
  (In "" (RELEVANT_KEYWORDS self) -> keyword_text kw desc <> "" ->
   5 <= _score_keywords self kw desc)
  /\ (In "" (TARGET_SECTORS self) -> s <> "" -> _score_sector self s = 20).
Proof.
  split.
  - intros Hin Ht. rewrite _score_keywords_found.
    destruct (PyStr.truthy _) eqn:E;
      [|apply truthy_false in E; contradiction].
    change 5 with (keyword_table 1). apply keyword_table_mono.
    assert (F : In "" (found_keywords self (keyword_text kw desc))).
    { apply filter_In. split; [exact Hin | apply contains_empty]. }
    destruct (found_keywords self (keyword_text kw desc));
      [destruct F | simpl; lia].
  - intros Hin Hs. unfold _score_sector.
    destruct s as [|c s]; [congruence|]. cbn [PyStr.truthy negb].
    assert (E : existsb
                  (fun target =>
                     PyStr.contains target (PyStr.lower (String c s)))
                  (TARGET_SECTORS self) = true).
    { apply existsb_exists. exists "". split; [exact Hin|].
      apply contains_empty. }
    now rewrite E.
Qed.

(** An engine configured with the empty keyword and the empty target. *)
Lemma empty_configured_term_matches_all_witness :
  5 <= _score_keywords (__init__ None (Some [""]) (Some [""]))
         (Some "roads") None
  /\ _score_sector (__init__ None (Some [""]) (Some [""])) "construction"
     = 20.
Proof.
  destruct (empty_configured_term_matches_all
              (__init__ None (Some [""]) (Some [""]))
              (Some "roads") None "construction") as (H1 & H2).
  split.
  - apply H1; [simpl; tauto | discriminate].
  - apply H2; [simpl; tauto | discriminate].
Defined.

(** X9. No constructed engine has an empty list, whatever overrides are
    given: passing the empty list switches no factor off, there is always
    a country that gets 20, and every ASCII entry of the priority list gets
    20 in lower case too. *)
Theorem constructed_lists_are_never_empty (a b c : option (list string)) :
  PRIORITY_COUNTRIES (__init__ a b c) <> []
  /\ TARGET_SECTORS (__init__ a b c) <> []
  /\ RELEVANT_KEYWORDS (__init__ a b c) <> []
  /\ (exists p, In p (PRIORITY_COUNTRIES (__init__ a b c))
                /\ _score_country (__init__ a b c) p = 20)
  /\ (forall p, In p (PRIORITY_COUNTRIES (__init__ a b c)) ->
                is_ascii p = true ->
                _score_country (__init__ a b c) (PyStr.lower p) = 20).
Proof.
  assert (N : forall o d, d <> [] -> override o d <> []).
  { intros [[|x l]|] d H; simpl; congruence. }
  assert (G : forall p x,
             In p (PRIORITY_COUNTRIES (__init__ a b c)) ->
             PyStr.eq_nocase x p = true ->
             _score_country (__init__ a b c) x = 20).
  { intros p x Hp Hx. unfold _score_country.
    assert (M : PyStr.mem (PyStr.upper x)
                  (map PyStr.upper (PRIORITY_COUNTRIES (__init__ a b c)))
                = true).
    { apply priority_country_nocase. exists p. split; [exact Hp | exact Hx]. }
    now rewrite M. }
  repeat match goal with |- _ /\ _ => split end;
    try (apply N; discriminate).
  - assert (H := N a Defaults.PRIORITY_COUNTRIES ltac:(discriminate)).
    change (override a Defaults.PRIORITY_COUNTRIES)
      with (PRIORITY_COUNTRIES (__init__ a b c)) in H.
    assert (X : forall l : list string, l <> [] -> exists p, In p l).
    { intros [|p l] Hl; [congruence | exists p; now left]. }
    destruct (X _ H) as [p Hp].
    exists p. split; [exact Hp|].
    apply (G p p Hp).
    rewrite <- lower_eq_nocase. apply String.eqb_refl.
  - intros p Hp _. apply (G p (PyStr.lower p) Hp).
    rewrite <- upper_eq_nocase.
    assert (U : forall s, PyStr.upper (PyStr.lower s) = PyStr.upper s).
    { induction s as [|ch s IH]; simpl; [reflexivity|]. rewrite IH.
      f_equal.
      assert (A : forallb (fun x =>
                    Ascii.eqb (PyStr.upper_ascii (PyStr.lower_ascii x))
                              (PyStr.upper_ascii x)) all_ascii = true)
        by (vm_compute; reflexivity).
      rewrite forallb_forall in A.
      apply Ascii.eqb_eq, A, all_ascii_complete. }
    rewrite U. apply String.eqb_refl.
Qed.

(** The engine built with the empty list for the countries, on es. *)
Lemma constructed_lists_are_never_empty_witness :
  _score_country (__init__ (Some []) None None) (PyStr.lower "ES") = 20.
Proof.
  destruct (constructed_lists_are_never_empty (Some []) None None)
    as (_ & _ & _ & _ & H).
  apply H; [simpl; tauto | reflexivity].
Defined.

(** ** The score as a sum *)

Lemma calculate_score_raw (self : ScoringEngine) (t : TenderDB) :
  calculate_score self t = raw_score self t.
Proof.
  pose proof (raw_score_bounds self t). unfold calculate_score. lia.
Qed.

(** X10. Every score is a multiple of 5, as every factor is. *)
Theorem score_is_multiple_of_five (self : ScoringEngine) (t : TenderDB) :
  (5 | calculate_score self t)
  /\ (5 | _score_budget (budget t) (currency t))
  /\ (5 | _score_country self (country t))
  /\ (5 | _score_sector self (sector t))
  /\ (5 | _score_keywords self (keywords t) (description t))
  /\ (5 | _score_tender_type (tender_type t))
  /\ (5 | _score_status (status t)).
Proof.
  assert (D : forall v l, In v l -> Forall (Z.divide 5) l -> (5 | v)).
  { intros v l Hin Hall. rewrite Forall_forall in Hall. now apply Hall. }
  assert (M : forall k, (5 | 5 * k)) by (intros k; exists k; lia).
  assert (Hb : (5 | _score_budget (budget t) (currency t))).
  { apply (D _ _ (_score_budget_values _ _)).
    repeat constructor;
      [apply (M 0) | apply (M 1) | apply (M 3) | apply (M 5) | apply (M 6)]. }
  assert (Hc : (5 | _score_country self (country t))).
  { destruct (_score_country_values self (country t)) as [E | E]; rewrite E;
      [apply (M 4) | apply (M 1)]. }
  assert (Hs : (5 | _score_sector self (sector t))).
  { apply (D _ _ (_score_sector_values self _)).
    repeat constructor; [apply (M 0) | apply (M 1) | apply (M 4)]. }
  assert (Hk : (5 | _score_keywords self (keywords t) (description t))).
  { apply (D _ _ (_score_keywords_values self _ _)).
    repeat constructor; [apply (M 0) | apply (M 1) | apply (M 2) | apply (M 3)]. }
  assert (Ht : (5 | _score_tender_type (tender_type t))).
  { apply (D _ _ (_score_tender_type_values _)).
    repeat constructor; [apply (M (-1)) | apply (M 0) | apply (M 2)]. }
  assert (Hst : (5 | _score_status (status t))).
  { destruct (_score_status_values (status t)) as [E | E]; rewrite E;
      [apply (M 1) | apply (M 0)]. }
  repeat match goal with |- _ /\ _ => split end; trivial.
  rewrite calculate_score_raw. unfold raw_score.
  repeat apply Z.divide_add_r; trivial. apply (M 0).
Qed.

(** X11. More text never lowers the keyword factor: the factor of the
    keywords alone, and of the description alone, is at most the factor of
    both together; so a tender whose description is missing scores at most
    what the same tender with a description does. *)
Theorem more_text_never_lowers_keywords
  (self : ScoringEngine) (kw desc : option string) :
  _score_keywords self kw None <= _score_keywords self kw desc
  /\ _score_keywords self None desc <= _score_keywords self kw desc
  /\ (forall t1 t2,
         keywords t1 = kw -> description t1 = None ->
         keywords t2 = kw -> description t2 = desc ->
         budget t1 = budget t2 -> country t1 = country t2 ->
         sector t1 = sector t2 -> tender_type t1 = tender_type t2 ->
         status t1 = status t2 ->
         calculate_score self t1 <= calculate_score self t2).
Proof.
  assert (G : forall a b text,
             text = a \/ text = b ->
             (if PyStr.truthy text
              then keyword_table (List.length (found_keywords self text))
              else 0)
             <= (if PyStr.truthy (a ++ b)
                 then keyword_table
                        (List.length (found_keywords self (a ++ b)))
                 else 0)).
  { intros a b text Ht.
    destruct (PyStr.truthy text) eqn:E.
    - assert (T : PyStr.truthy (a ++ b) = true).
      { destruct Ht as [-> | ->].
        - destruct a; [discriminate | reflexivity].
        - destruct a; [exact E | reflexivity]. }
      rewrite T. apply keyword_table_mono. unfold found_keywords.
      apply filter_length_mono. intros k _ Hk.
      apply contains_Substring. apply contains_Substring in Hk.
      destruct Ht as [-> | ->];
        [now apply Substring_app_r | now apply Substring_app_l].
    - destruct (PyStr.truthy (a ++ b)); [apply keyword_table_nonneg | lia]. }
  assert (L : _score_keywords self kw None <= _score_keywords self kw desc).
  { rewrite !_score_keywords_found, !keyword_text_parts.
    change (text_part None) with "". rewrite append_empty_r.
    apply G. now left. }
  split; [exact L | split].
  - rewrite !_score_keywords_found, !keyword_text_parts.
    change (text_part None ++ text_part desc) with (text_part desc).
    apply G. now right.
  - intros t1 t2 K1 D1 K2 D2 Hb Hc Hs Hty Hst.
    rewrite !calculate_score_raw. unfold raw_score, _score_budget.
    rewrite K1, D1, K2, D2, Hb, Hc, Hs, Hty, Hst. lia.
Qed.

(** The example tender without and with a description that adds terms. *)
Lemma more_text_never_lowers_keywords_witness :
  calculate_score default_engine
    {| id := 2; title := "Cloud Infrastructure Migration";
          description := None; country := "ES";
          sector := "software development"; cpv_code := None;
          budget := Some (Finite (600000 # 1)); currency := "EUR";
          status := "open"; tender_type := Some TenderType.SERVICES;
          deadline := None; published_date := None;
          keywords := Some "cloud, api, saas"; score := None;
          created_at := None; updated_at := None |}
  <= calculate_score default_engine
       {| id := 2; title := "Cloud Infrastructure Migration";
             description := Some "A data platform"; country := "ES";
             sector := "software development"; cpv_code := None;
             budget := Some (Finite (600000 # 1)); currency := "EUR";
             status := "open"; tender_type := Some TenderType.SERVICES;
             deadline := None; published_date := None;
             keywords := Some "cloud, api, saas"; score := None;
             created_at := None; updated_at := None |}.
Proof.
  destruct (more_text_never_lowers_keywords default_engine
              (Some "cloud, api, saas") (Some "A data platform"))
    as (_ & _ & H).
  apply H; reflexivity.
Defined.

(** X12. The score never decreases when the budget grows, nor when a
    missing budget is filled in: for two tenders that agree on the other
    six fields read, the one whose budget is missing, or is the smaller
    float, scores at most what the other does. *)
Theorem score_monotone_in_budget
  (self : ScoringEngine) (t1 t2 : TenderDB) :
  country t1 = country t2 -> sector t1 = sector t2 ->
  keywords t1 = keywords t2 -> description t1 = description t2 ->
  tender_type t1 = tender_type t2 -> status t1 = status t2 ->
  (budget t1 = None
   \/ exists x y, budget t1 = Some x /\ budget t2 = Some y /\ PyFloat.le x y) ->
  calculate_score self t1 <= calculate_score self t2.
Proof.
  intros Hc Hs Hk Hd Hty Hst Hb.
  assert (B : _score_budget (budget t1) (currency t1)
              <= _score_budget (budget t2) (currency t2)).
  { destruct Hb as [E | (x & y & E1 & E2 & L)].
    - rewrite E. apply _score_budget_bounds.
    - rewrite E1, E2. now apply _score_budget_monotone. }
  rewrite !calculate_score_raw. unfold raw_score.
  rewrite Hc, Hs, Hk, Hd, Hty, Hst. lia.
Qed.

(** The blank tender without a budget and with one. *)
Lemma score_monotone_in_budget_witness :
  calculate_score default_engine blank_tender
  <= calculate_score default_engine
       {| id := 1; title := "t"; description := None; country := "BR";
          sector := ""; cpv_code := None;
          budget := Some (Finite 50000); currency := "USD";
          status := TenderStatus.CLOSED; tender_type := None;
          deadline := None; published_date := None; keywords := None;
          score := None; created_at := None; updated_at := None |}.
Proof.
  apply score_monotone_in_budget; try reflexivity.
  left. reflexivity.
Defined.

(** ** Contract type and status *)

(** X13. The contract-type factor compares the stored string exactly: it
    is -5 only for works and concession, 10 only for services and
    supplies, and 0 for everything else, a missing type, the empty string
    and any other spelling (capitals included). *)
Theorem tender_type_factor_exact (ty : option string) :
  (_score_tender_type ty = -5
   <-> ty = Some TenderType.WORKS \/ ty = Some TenderType.CONCESSION)
  /\ (_score_tender_type ty = 10
      <-> ty = Some TenderType.SERVICES \/ ty = Some TenderType.SUPPLIES)
  /\ (_score_tender_type ty = 0
      <-> ty <> Some TenderType.WORKS /\ ty <> Some TenderType.CONCESSION
          /\ ty <> Some TenderType.SERVICES /\ ty <> Some TenderType.SUPPLIES)
  /\ _score_tender_type (Some "WORKS") = 0
  /\ _score_tender_type (Some "") = 0.
Proof.
  assert (G : forall s,
             (s = TenderType.WORKS /\ _score_tender_type (Some s) = -5)
             \/ (s = TenderType.CONCESSION
                 /\ _score_tender_type (Some s) = -5)
             \/ (s = TenderType.SERVICES /\ _score_tender_type (Some s) = 10)
             \/ (s = TenderType.SUPPLIES /\ _score_tender_type (Some s) = 10)
             \/ (s <> TenderType.WORKS /\ s <> TenderType.CONCESSION
                 /\ s <> TenderType.SERVICES /\ s <> TenderType.SUPPLIES
                 /\ _score_tender_type (Some s) = 0)).
  { intros s.
    destruct (String.eqb_spec s TenderType.WORKS) as [-> | N1]; [now left|].
    destruct (String.eqb_spec s TenderType.CONCESSION) as [-> | N2];
      [right; now left|].
    destruct (String.eqb_spec s TenderType.SERVICES) as [-> | N3];
      [right; right; now left|].
    destruct (String.eqb_spec s TenderType.SUPPLIES) as [-> | N4];
      [right; right; right; now left|].
    do 4 right. repeat split; trivial.
    unfold _score_tender_type. destruct s as [|c s]; [reflexivity|].
    cbn [PyStr.opt_truthy PyStr.truthy negb].
    unfold PyStr.mem, LESS_RELEVANT_TYPES. cbn [existsb].
    apply String.eqb_neq in N1, N2, N3, N4.
    now rewrite N1, N2, N3, N4. }
  assert (W : TenderType.WORKS <> TenderType.CONCESSION) by discriminate.
  assert (W2 : TenderType.WORKS <> TenderType.SERVICES) by discriminate.
  assert (W3 : TenderType.WORKS <> TenderType.SUPPLIES) by discriminate.
  assert (W4 : TenderType.CONCESSION <> TenderType.SERVICES) by discriminate.
  assert (W5 : TenderType.CONCESSION <> TenderType.SUPPLIES) by discriminate.
  assert (W6 : TenderType.SERVICES <> TenderType.SUPPLIES) by discriminate.
  repeat match goal with |- _ /\ _ => split end; try reflexivity.
  all: destruct ty as [s|];
    [ destruct (G s) as [[-> E] | [[-> E] | [[-> E] | [[-> E] | (N1 & N2 & N3 & N4 & E)]]]];
      rewrite E; split; intros H;
      repeat match goal with
             | H : _ \/ _ |- _ => destruct H
             | H : _ /\ _ |- _ => destruct H
             | H : Some _ = Some _ |- _ => injection H as H
             end;
      try congruence; try lia; auto;
      try (repeat split; congruence)
    | change (_score_tender_type None) with 0; split; intros H;
      repeat match goal with
             | H : _ \/ _ |- _ => destruct H
             end;
      try discriminate; try lia; repeat split; discriminate ].
Qed.

(** X14. Only the exact string open earns the status points, and they
    reach the total in full: of two tenders that agree on the other six
    fields read, the one whose status is open scores exactly 5 more than
    one whose status is anything else. *)
Theorem opening_adds_five (self : ScoringEngine) (t1 t2 : TenderDB) :
  budget t1 = budget t2 -> country t1 = country t2 ->
  sector t1 = sector t2 -> keywords t1 = keywords t2 ->
  description t1 = description t2 -> tender_type t1 = tender_type t2 ->
  status t1 <> "open" -> status t2 = "open" ->
  calculate_score self t2 = calculate_score self t1 + 5
  /\ _score_status (status t1) = 0
  /\ _score_status (status t2) = 5.
Proof.
  intros Hb Hc Hs Hk Hd Hty N O.
  assert (E1 : _score_status (status t1) = 0).
  { unfold _score_status. apply String.eqb_neq in N. now rewrite N. }
  assert (E2 : _score_status (status t2) = 5) by now rewrite O.
  repeat split; trivial.
  rewrite !calculate_score_raw. unfold raw_score, _score_budget.
  rewrite Hb, Hc, Hs, Hk, Hd, Hty, E1, E2. lia.
Qed.

(** The example tender with its status in capitals, and as it is. *)
Lemma opening_adds_five_witness :
  calculate_score default_engine example_tender
  = calculate_score default_engine
      {| id := 2; title := "Cloud Infrastructure Migration";
         description := Some ""; country := "ES";
         sector := "software development"; cpv_code := None;
         budget := Some (Finite (600000 # 1)); currency := "EUR";
         status := "OPEN"; tender_type := Some TenderType.SERVICES;
         deadline := None; published_date := None;
         keywords := Some "cloud, api, saas"; score := None;
         created_at := None; updated_at := None |} + 5.
Proof.
  apply opening_adds_five; try reflexivity. discriminate.
Defined.

(** ** Seeding and the response model *)

(** X15. The scoring step of the seeding loop stores a score that the
    response model accepts (between 0 and 100, not missing), and scoring
    does not read the stored score: scoring a scored row again changes
    nothing, with any engine the score of the row is that of the tender it
    came from, and the row passes validation exactly when the tender's
    other columns do. *)
Theorem seed_score_is_accepted (e e' : ScoringEngine) (t : TenderDB) :
  TenderResponse.score_ok (score (seed_score e t)) = true
  /\ score (seed_score e t) = Some (calculate_score e t)
  /\ seed_score e (seed_score e t) = seed_score e t
  /\ calculate_score e' (seed_score e t) = calculate_score e' t
  /\ TenderResponse.valid (seed_score e t)
     = TenderResponse.valid (set_score t (Some 0)).
Proof.
  assert (R : 0 <= calculate_score e t <= 100)
    by (unfold calculate_score; lia).
  repeat match goal with |- _ /\ _ => split end; try reflexivity.
  - simpl. apply andb_true_intro. split; apply Z.leb_le; lia.
  - unfold TenderResponse.valid. simpl.
    replace ((0 <=? calculate_score e t) && (calculate_score e t <=? 100))
      with true; [reflexivity|].
    symmetry. apply andb_true_intro. split; apply Z.leb_le; lia.
Qed.

(** ** The listing of tenders *)

Lemma upper_idempotent (s : string) :
  PyStr.upper (PyStr.upper s) = PyStr.upper s.
Proof.
  induction s as [|c s IH]; simpl; [reflexivity|]. rewrite IH. f_equal.
  assert (A : forallb (fun x =>
                Ascii.eqb (PyStr.upper_ascii (PyStr.upper_ascii x))
                          (PyStr.upper_ascii x)) all_ascii = true)
    by (vm_compute; reflexivity).
  rewrite forallb_forall in A. apply Ascii.eqb_eq, A, all_ascii_complete.
Qed.

Lemma firstn_plus {A : Type} (a b : nat) (l : list A) :
  firstn (a + b) l = (firstn a l ++ firstn b (skipn a l))%list.
Proof.
  revert l; induction a as [|a IH]; intros l; simpl; [reflexivity|].
  destruct l as [|x l]; simpl.
  - now rewrite firstn_nil.
  - now rewrite IH.
Qed.

Lemma firstn_In_list {A : Type} (n : nat) (l : list A) (x : A) :
  In x (firstn n l) -> In x l.
Proof.
  intros H. rewrite <- (firstn_skipn n l). apply in_or_app. now left.
Qed.

Lemma skipn_In_list {A : Type} (n : nat) (l : list A) (x : A) :
  In x (skipn n l) -> In x l.
Proof.
  intros H. rewrite <- (firstn_skipn n l). apply in_or_app. now right.
Qed.

Lemma filter_keeps_all {A : Type} (f : A -> bool) (l : list A) :
  (forall x, In x l -> f x = true) -> filter f l = l.
Proof.
  induction l as [|x l IH]; intros H; simpl; [reflexivity|].
  rewrite (H x (or_introl eq_refl)), IH; [reflexivity|].
  intros y Hy. apply H. now right.
Qed.

Lemma validate_all_Some (l l' : list TenderDB) :
  Main.validate_all l = Some l' ->
  l' = l /\ Forall (fun t => TenderResponse.valid t = true) l.
Proof.
  revert l'; induction l as [|t l IH]; intros l' H; simpl in H.
  - injection H as <-. split; constructor.
  - unfold TenderResponse.model_validate in H.
    destruct (TenderResponse.valid t) eqn:V; [|discriminate].
    destruct (Main.validate_all l) as [vs|]; [|discriminate].
    injection H as <-. destruct (IH vs eq_refl) as [-> F].
    split; [reflexivity | now constructor].
Qed.

Lemma validate_all_None (l : list TenderDB) :
  Main.validate_all l = None
  <-> exists t, In t l /\ TenderResponse.valid t = false.
Proof.
  induction l as [|t l IH]; simpl.
  - split; [discriminate | intros [t [[] _]]].
  - unfold TenderResponse.model_validate.
    destruct (TenderResponse.valid t) eqn:V.
    + destruct (Main.validate_all l) as [vs|].
      * split; [discriminate|].
        intros [u [[<- | Hu] Vu]]; [congruence|].
        assert (F : Some vs = None) by (apply IH; eauto).
        discriminate.
      * split; [|reflexivity]. intros _.
        destruct (proj1 IH eq_refl) as [u [Hu Vu]]. eauto.
    + split; [|reflexivity]. intros _. eauto.
Qed.

Lemma stage_string_In (o : option string)
  (p : string -> TenderDB -> bool) (l : list TenderDB) (t : TenderDB) :
  In t (match o with
        | Some c => if PyStr.truthy c then filter (p c) l else l
        | None => l
        end)
  <-> In t l /\ (forall c, o = Some c -> c <> "" -> p c t = true).
Proof.
  destruct o as [[|a c]|]; simpl.
  - split; [intros H; split; [exact H | intros c E; injection E as <-; congruence]
           | tauto].
  - rewrite filter_In. split; intros [H1 H2]; split; trivial.
    + intros c' E _. now injection E as <-.
    + apply H2; [reflexivity | discriminate].
  - split; [intros H; split; [exact H | discriminate] | tauto].
Qed.

Lemma stage_bound_In (o : option Q)
  (p : Q -> TenderDB -> bool) (l : list TenderDB) (t : TenderDB) :
  In t (match o with
        | Some m => filter (p m) l
        | None => l
        end)
  <-> In t l /\ (forall m, o = Some m -> p m t = true).
Proof.
  destruct o as [m|].
  - rewrite filter_In. split; intros [H1 H2]; split; trivial.
    + intros m' E. now injection E as <-.
    + now apply H2.
  - split; [intros H; split; [exact H | discriminate] | tauto].
Qed.

Section Listing.

Variable ilike : string -> string -> bool.

Lemma filtered_In (q : Main.Params.t) (table : list TenderDB) (t : TenderDB) :
  In t (Main.filtered ilike q table)
  <-> In t table
      /\ (forall c, Main.Params.country q = Some c -> c <> "" ->
                    String.eqb (country t) (PyStr.upper c) = true)
      /\ (forall s, Main.Params.sector q = Some s -> s <> "" ->
                    ilike (sector t) ("%" ++ s ++ "%") = true)
      /\ (forall v, Main.Params.status q = Some v -> v <> "" ->
                    String.eqb (status t) v = true)
      /\ (forall v, Main.Params.tender_type q = Some v -> v <> "" ->
                    Main.column_eq (tender_type t) v = true)
      /\ (forall m, Main.Params.min_score q = Some m ->
                    Main.score_ge (score t) m = true)
      /\ (forall m, Main.Params.max_score q = Some m ->
                    Main.score_le (score t) m = true).
Proof.
  unfold Main.filtered. cbv zeta.
  rewrite (stage_bound_In _ (fun m t => Main.score_le (score t) m)).
  rewrite (stage_bound_In _ (fun m t => Main.score_ge (score t) m)).
  rewrite (stage_string_In _
             (fun v t => Main.column_eq (tender_type t) v)).
  rewrite (stage_string_In _ (fun v t => String.eqb (status t) v)).
  rewrite (stage_string_In _
             (fun s t => ilike (sector t) ("%" ++ s ++ "%"))).
  rewrite (stage_string_In _
             (fun c t => String.eqb (country t) (PyStr.upper c))).
  tauto.
Qed.

Lemma stage_string_filter (o : option string)
  (p : string -> TenderDB -> bool) (l : list TenderDB) :
  match o with
  | Some c => if PyStr.truthy c then filter (p c) l else l
  | None => l
  end
  = filter (fun t => match o with
                     | Some c => if PyStr.truthy c then p c t else true
                     | None => true
                     end) l.
Proof.
  destruct o as [c|]; [destruct (PyStr.truthy c)|];
    try reflexivity; symmetry; now apply filter_keeps_all.
Qed.

Lemma stage_bound_filter (o : option Q)
  (p : Q -> TenderDB -> bool) (l : list TenderDB) :
  match o with
  | Some m => filter (p m) l
  | None => l
  end
  = filter (fun t => match o with
                     | Some m => p m t
                     | None => true
                     end) l.
Proof.
  destruct o as [m|]; [reflexivity|].
  symmetry. now apply filter_keeps_all.
Qed.

Lemma filter_twice {A : Type} (f g : A -> bool) (l : list A) :
  filter g (filter f l) = filter (fun x => f x && g x) l.
Proof.
  induction l as [|x l IH]; simpl; [reflexivity|].
  destruct (f x); simpl; [destruct (g x)|]; now rewrite IH.
Qed.

(** X16. The rows [get_tenders] counts and pages are the rows of the table
    that meet every filter given, each as often as the table holds it and
    in the order of the table: for an ASCII country parameter, the
    filtered rows are the table filtered by one test, which a row passes
    exactly when its stored country equals the upper-cased parameter, its
    sector is ILIKE the parameter between two percent signs, its status
    and contract type equal the parameter, and its stored score is present
    and within the bounds.  A parameter that is missing or the empty string
    filters nothing; a row without a score, or without a contract type, is
    dropped as soon as a bound, or a type, is given, even the bound 0. *)
Theorem filters_select_matching_rows
  (q : Main.Params.t) (table : list TenderDB) :
  (forall c, Main.Params.country q = Some c -> is_ascii c = true) ->
  exists keep : TenderDB -> bool,
    Main.filtered ilike q table = filter keep table
    /\ forall t,
         keep t = true
         <-> (forall c, Main.Params.country q = Some c -> c <> "" ->
                        country t = PyStr.upper c)
             /\ (forall s, Main.Params.sector q = Some s -> s <> "" ->
                           ilike (sector t) ("%" ++ s ++ "%") = true)
             /\ (forall v, Main.Params.status q = Some v -> v <> "" ->
                           status t = v)
             /\ (forall v, Main.Params.tender_type q = Some v -> v <> "" ->
                           tender_type t = Some v)
             /\ (forall m, Main.Params.min_score q = Some m ->
                           exists v, score t = Some v
                                     /\ (m <= inject_Z v)%Q)
             /\ (forall m, Main.Params.max_score q = Some m ->
                           exists v, score t = Some v
                                     /\ (inject_Z v <= m)%Q).
Proof.
  intros _.
  assert (Ce : forall o v, Main.column_eq o v = true <-> o = Some v).
  { intros [s|] v; simpl; [|split; discriminate].
    rewrite String.eqb_eq. split; congruence. }
  assert (Ge : forall o m, Main.score_ge o m = true
                           <-> exists v, o = Some v /\ (m <= inject_Z v)%Q).
  { intros [v|] m; simpl.
    - rewrite Qle_bool_iff. split; [eauto | intros [w [E H]]].
      now injection E as <-.
    - split; [discriminate | intros [w [E _]]; discriminate]. }
  assert (Le : forall o m, Main.score_le o m = true
                           <-> exists v, o = Some v /\ (inject_Z v <= m)%Q).
  { intros [v|] m; simpl.
    - rewrite Qle_bool_iff. split; [eauto | intros [w [E H]]].
      now injection E as <-.
    - split; [discriminate | intros [w [E _]]; discriminate]. }
  assert (St : forall (o : option string) (p : string -> bool),
             match o with
             | Some c => if PyStr.truthy c then p c else true
             | None => true
             end = true
             <-> (forall c, o = Some c -> c <> "" -> p c = true)).
  { intros [[|a c]|] p; simpl.
    - split; [intros _ c E; injection E as <-; congruence | reflexivity].
    - split; [intros H c' E _; now injection E as <-|].
      intros H. apply H; [reflexivity | discriminate].
    - split; [discriminate | reflexivity]. }
  assert (Bd : forall (o : option Q) (p : Q -> bool),
             match o with
             | Some m => p m
             | None => true
             end = true
             <-> (forall m, o = Some m -> p m = true)).
  { intros [m|] p.
    - split; [intros H m' E; now injection E as <- | intros H; now apply H].
    - split; [discriminate | reflexivity]. }
  eexists. split.
  - unfold Main.filtered. cbv zeta.
    rewrite (stage_string_filter (Main.Params.country q)
               (fun c t => String.eqb (country t) (PyStr.upper c))).
    rewrite (stage_string_filter (Main.Params.sector q)
               (fun s t => ilike (sector t) ("%" ++ s ++ "%"))).
    rewrite (stage_string_filter (Main.Params.status q)
               (fun v t => String.eqb (status t) v)).
    rewrite (stage_string_filter (Main.Params.tender_type q)
               (fun v t => Main.column_eq (tender_type t) v)).
    rewrite (stage_bound_filter (Main.Params.min_score q)
               (fun m t => Main.score_ge (score t) m)).
    rewrite (stage_bound_filter (Main.Params.max_score q)
               (fun m t => Main.score_le (score t) m)).
    rewrite !filter_twice. reflexivity.
  - intros t. cbv beta. rewrite !andb_true_iff.
    rewrite (St (Main.Params.country q)
               (fun c => String.eqb (country t) (PyStr.upper c))).
    rewrite (St (Main.Params.sector q)
               (fun s => ilike (sector t) ("%" ++ s ++ "%"))).
    rewrite (St (Main.Params.status q)
               (fun v => String.eqb (status t) v)).
    rewrite (St (Main.Params.tender_type q)
               (fun v => Main.column_eq (tender_type t) v)).
    rewrite (Bd (Main.Params.min_score q)
               (fun m => Main.score_ge (score t) m)).
    rewrite (Bd (Main.Params.max_score q)
               (fun m => Main.score_le (score t) m)).
    split.
    + intros (H1 & H2 & H3 & H4 & H5 & H6).
      repeat match goal with |- _ /\ _ => split end; trivial.
      * intros c E N. now apply String.eqb_eq, H1.
      * intros v E N. now apply String.eqb_eq, H3.
      * intros v E N. now apply Ce, H4.
      * intros m E. now apply Ge, H5.
      * intros m E. now apply Le, H6.
    + intros (H1 & H2 & H3 & H4 & H5 & H6).
      repeat match goal with |- _ /\ _ => split end; trivial.
      * intros c E N. now apply String.eqb_eq, H1.
      * intros v E N. now apply String.eqb_eq, H3.
      * intros v E N. now apply Ce, H4.
      * intros m E. now apply Ge, H5.
      * intros m E. now apply Le, H6.
Qed.

(** X17. The country filter upper-cases its parameter and compares it with
    the stored code as it is: parameters that differ only by letter case
    select the same rows, and a row whose stored code is not in capitals is
    selected by no country filter. *)
Theorem country_filter_needs_stored_capitals
  (q : Main.Params.t) (table : list TenderDB) (c c' : string) :
  (PyStr.eq_nocase c c' = true ->
   Main.filtered ilike (Main.with_country q (Some c)) table
   = Main.filtered ilike (Main.with_country q (Some c')) table)
  /\ (forall t, c <> "" -> country t <> PyStr.upper (country t) ->
                ~ In t (Main.filtered ilike
                          (Main.with_country q (Some c)) table)).
Proof.
  split.
  - intros H. unfold Main.filtered, Main.with_country. cbn.
    now rewrite (eq_nocase_truthy _ _ H), (eq_nocase_upper _ _ H).
  - intros t N U H. apply filtered_In in H.
    destruct H as (_ & H & _).
    specialize (H c eq_refl N). apply String.eqb_eq in H.
    apply U. rewrite H. now rewrite upper_idempotent.
Qed.

End Listing.

(** The country filter es on the seeded blank and example rows: the
    filtered rows are a filter of the table that keeps the example row. *)
Lemma filters_select_matching_rows_witness :
  exists keep : TenderDB -> bool,
    Main.filtered Main.simple_ilike
      (Main.with_country Main.default_params (Some "es"))
      [seed_score default_engine blank_tender;
       seed_score default_engine example_tender]
    = filter keep [seed_score default_engine blank_tender;
                   seed_score default_engine example_tender]
    /\ keep (seed_score default_engine example_tender) = true.
Proof.
  destruct (filters_select_matching_rows Main.simple_ilike
              (Main.with_country Main.default_params (Some "es"))
              [seed_score default_engine blank_tender;
               seed_score default_engine example_tender])
    as [keep [E K]].
  - intros c H. injection H as <-. reflexivity.
  - exists keep. split; [exact E|]. apply K.
    repeat match goal with |- _ /\ _ => split end;
      try (intros x H; discriminate).
    intros c H _. injection H as <-. reflexivity.
Defined.

(** The parameters es and ES, and a row stored as es. *)
Lemma country_filter_needs_stored_capitals_witness :
  Main.filtered Main.simple_ilike
    (Main.with_country Main.default_params (Some "es"))
    [example_tender; blank_tender]
  = Main.filtered Main.simple_ilike
      (Main.with_country Main.default_params (Some "ES"))
      [example_tender; blank_tender]
  /\ ~ In (set_score
             {| id := 9; title := "t"; description := None; country := "es";
                sector := "it"; cpv_code := None; budget := None;
                currency := "EUR"; status := "open"; tender_type := None;
                deadline := None; published_date := None; keywords := None;
                score := None; created_at := None; updated_at := None |}
             (Some 25))
          (Main.filtered Main.simple_ilike
             (Main.with_country Main.default_params (Some "es"))
             [set_score
                {| id := 9; title := "t"; description := None;
                   country := "es"; sector := "it"; cpv_code := None;
                   budget := None; currency := "EUR"; status := "open";
                   tender_type := None; deadline := None;
                   published_date := None; keywords := None; score := None;
                   created_at := None; updated_at := None |}
                (Some 25)]).
Proof.
  split.
  - destruct (country_filter_needs_stored_capitals Main.simple_ilike
                Main.default_params [example_tender; blank_tender]
                "es" "ES") as (H & _).
    apply H. reflexivity.
  - match goal with
    | |- ~ In ?t (Main.filtered _ _ ?table) =>
        destruct (country_filter_needs_stored_capitals Main.simple_ilike
                    Main.default_params table "es" "ES") as (_ & H);
        apply (H t); discriminate
    end.
Defined.

Section Paging.

Variable ilike : string -> string -> bool.

Variable order_by :
  Main.SortDirection * Main.SortColumn -> list TenderDB -> list TenderDB.

(** X18. [get_tenders] fails exactly when some row of the requested page
    does not pass the response model, rows of other pages playing no part,
    and it never raises an HTTP error; when it returns, the items are the
    rows of the page, the page and page size are those asked for, and the
    total is the number of rows that meet the filters, the same for every
    page and every sort. *)
Theorem listing_outcome (q : Main.Params.t) (table : list TenderDB) :
  (Main.get_tenders ilike order_by q table = Main.Raised Main.ValidationError
   <-> exists t, In t (Main.page_rows ilike order_by q table)
                 /\ TenderResponse.valid t = false)
  /\ (forall code detail,
         Main.get_tenders ilike order_by q table
         <> Main.Raised (Main.HTTPException code detail))
  /\ (forall r,
         Main.get_tenders ilike order_by q table = Main.Returned r ->
         Main.items r = Main.page_rows ilike order_by q table
         /\ Main.page r = Main.Params.page q
         /\ Main.page_size r = Main.Params.page_size q
         /\ Main.total r
            = Z.of_nat (List.length (Main.filtered ilike q table))
         /\ forall n by_ order r',
              Main.get_tenders ilike order_by
                (Main.at_page (Main.with_sort q by_ order) n) table
              = Main.Returned r' ->
              Main.total r' = Main.total r).
Proof.
  unfold Main.get_tenders. cbv zeta.
  destruct (Main.validate_all (Main.page_rows ilike order_by q table))
    as [vs|] eqn:V.
  - split; [|split].
    + split; [discriminate|]. intros H.
      apply validate_all_None in H. congruence.
    + discriminate.
    + intros r E. injection E as <-. cbn.
      destruct (validate_all_Some _ _ V) as [-> _].
      repeat split. intros n by_ order r' E'.
      destruct (Main.validate_all
                  (Main.page_rows ilike order_by
                     (Main.at_page (Main.with_sort q by_ order) n) table));
        [|discriminate].
      injection E' as <-. reflexivity.
  - split; [|split].
    + split; [|reflexivity]. intros _. now apply validate_all_None.
    + discriminate.
    + discriminate.
Qed.

(** X19. An unknown sort field is no error and falls back to the score in
    descending order whatever direction is asked for; for the three known
    fields every direction other than desc is ascending. *)
Theorem unknown_sort_field_falls_back
  (q : Main.Params.t) (table : list TenderDB) (by_ order : string) :
  (by_ <> "score" -> by_ <> "budget" -> by_ <> "published_date" ->
   Main.get_tenders ilike order_by (Main.with_sort q by_ order) table
   = Main.get_tenders ilike order_by (Main.with_sort q "score" "desc") table)
  /\ (order <> "desc" ->
      (by_ = "score" \/ by_ = "budget" \/ by_ = "published_date") ->
      Main.get_tenders ilike order_by (Main.with_sort q by_ order) table
      = Main.get_tenders ilike order_by (Main.with_sort q by_ "asc") table).
Proof.
  split.
  - intros N1 N2 N3.
    unfold Main.get_tenders, Main.page_rows, Main.ordered, Main.order_func.
    cbn. apply String.eqb_neq in N1, N2, N3. now rewrite N1, N2, N3.
  - intros N H.
    unfold Main.get_tenders, Main.page_rows, Main.ordered, Main.order_func.
    cbn. apply String.eqb_neq in N. rewrite N.
    destruct H as [-> | [-> | ->]]; reflexivity.
Qed.

Hypothesis order_by_keeps_rows :
  forall o l, Permutation (order_by o l) l.

Lemma ordered_length (q : Main.Params.t) (table : list TenderDB) :
  List.length (Main.ordered ilike order_by q table)
  = List.length (Main.filtered ilike q table).
Proof. apply Permutation_length, order_by_keeps_rows. Qed.

(** X20. A page holds at most [page_size] rows, all of them rows of the
    table that passed the filters, and a page past the last row is the
    empty list with the right total, not an error. *)
Theorem page_is_bounded (q : Main.Params.t) (table : list TenderDB) :
  1 <= Main.Params.page q ->
  1 <= Main.Params.page_size q ->
  Z.of_nat (List.length (Main.page_rows ilike order_by q table))
  <= Main.Params.page_size q
  /\ (forall t, In t (Main.page_rows ilike order_by q table) ->
                In t (Main.filtered ilike q table))
  /\ (Z.of_nat (List.length (Main.filtered ilike q table))
      <= (Main.Params.page q - 1) * Main.Params.page_size q ->
      Main.get_tenders ilike order_by q table
      = Main.Returned
          {| Main.items := [];
             Main.total :=
               Z.of_nat (List.length (Main.filtered ilike q table));
             Main.page := Main.Params.page q;
             Main.page_size := Main.Params.page_size q |}).
Proof.
  intros Hp Hs. split; [|split].
  - unfold Main.page_rows. cbv zeta.
    pose proof (firstn_le_length (Z.to_nat (Main.Params.page_size q))
                  (skipn (Z.to_nat ((Main.Params.page q - 1)
                                    * Main.Params.page_size q))
                         (Main.ordered ilike order_by q table))).
    lia.
  - intros t H. unfold Main.page_rows in H. cbv zeta in H.
    apply firstn_In_list, skipn_In_list in H.
    unfold Main.ordered in H.
    exact (Permutation_in t (order_by_keeps_rows _ _) H).
  - intros H. unfold Main.get_tenders, Main.page_rows. cbv zeta.
    rewrite skipn_all2; [now rewrite firstn_nil|].
    rewrite ordered_length. nia.
Qed.

Lemma tiles {A : Type} (ps : nat) (l : list A) (n : nat) :
  List.concat (map (fun k => firstn ps (skipn ((k - 1) * ps) l)) (seq 1 n))
  = firstn (n * ps) l.
Proof.
  induction n as [|n IH]; [reflexivity|].
  rewrite seq_S, map_app, concat_app, IH. simpl.
  rewrite app_nil_r, Nat.sub_0_r.
  replace (ps + n * ps)%nat with (n * ps + ps)%nat by lia.
  now rewrite firstn_plus.
Qed.

(** X21. The pages tile the ordered result: for a page size of at least 1,
    pages 1 to n one after the other are the first n times page-size rows
    of the ordered rows; once n pages are enough to hold every row that
    meets the filters, they are all the ordered rows, each row that meets
    the filters being on exactly one page. *)
Theorem pages_tile_the_result
  (q : Main.Params.t) (table : list TenderDB) (n : nat) :
  1 <= Main.Params.page_size q ->
  Main.pages_upto (fun q' => Main.page_rows ilike order_by q' table) q n
  = firstn (n * Z.to_nat (Main.Params.page_size q))
           (Main.ordered ilike order_by q table)
  /\ ((List.length (Main.filtered ilike q table)
       <= n * Z.to_nat (Main.Params.page_size q))%nat ->
      Main.pages_upto (fun q' => Main.page_rows ilike order_by q' table) q n
      = Main.ordered ilike order_by q table
      /\ Permutation
           (Main.pages_upto
              (fun q' => Main.page_rows ilike order_by q' table) q n)
           (Main.filtered ilike q table)).
Proof.
  intros Hs.
  assert (T : Main.pages_upto
                (fun q' => Main.page_rows ilike order_by q' table) q n
              = firstn (n * Z.to_nat (Main.Params.page_size q))
                       (Main.ordered ilike order_by q table)).
  { unfold Main.pages_upto. rewrite <- tiles. f_equal.
    apply map_ext_in. intros k Hk. apply in_seq in Hk.
    unfold Main.page_rows. cbn.
    replace (Z.to_nat ((Z.of_nat k - 1) * Main.Params.page_size q))
      with ((k - 1) * Z.to_nat (Main.Params.page_size q))%nat by nia.
    reflexivity. }
  split; [exact T|]. intros H.
  assert (E : Main.pages_upto
                (fun q' => Main.page_rows ilike order_by q' table) q n
              = Main.ordered ilike order_by q table).
  { rewrite T. apply firstn_all2. rewrite ordered_length. exact H. }
  split; [exact E|]. rewrite E. apply order_by_keeps_rows.
Qed.

End Paging.


Lemma reversing_order_keeps_rows
  (o : Main.SortDirection * Main.SortColumn) (l : list TenderDB) :
  Permutation (Main.reversing_order o l) l.
Proof.
  unfold Main.reversing_order. destruct (fst o).
  - apply Permutation_refl.
  - apply Permutation_sym, Permutation_rev.
Qed.

(** The first page of two rows of the table of three. *)
Lemma listing_outcome_witness :
  exists r,
    Main.get_tenders Main.simple_ilike Main.reversing_order
      Main.sample_params Main.sample_table = Main.Returned r
    /\ Main.total r = 3
    /\ List.length (Main.items r) = 2%nat.
Proof.
  eexists. split; [vm_compute; reflexivity|].
  destruct (listing_outcome Main.simple_ilike Main.reversing_order
              Main.sample_params Main.sample_table) as (_ & _ & H).
  split.
  - match goal with
    | |- Main.total ?r = _ =>
        destruct (H r eq_refl) as (_ & _ & _ & T & _); rewrite T
    end.
    reflexivity.
  - reflexivity.
Defined.

(** The sort field price, and the direction ASC on the budget. *)
Lemma unknown_sort_field_falls_back_witness :
  Main.get_tenders Main.simple_ilike Main.reversing_order
    (Main.with_sort Main.sample_params "price" "asc") Main.sample_table
  = Main.get_tenders Main.simple_ilike Main.reversing_order
      (Main.with_sort Main.sample_params "score" "desc") Main.sample_table
  /\ Main.get_tenders Main.simple_ilike Main.reversing_order
       (Main.with_sort Main.sample_params "budget" "ASC") Main.sample_table
     = Main.get_tenders Main.simple_ilike Main.reversing_order
         (Main.with_sort Main.sample_params "budget" "asc") Main.sample_table.
Proof.
  split.
  - destruct (unknown_sort_field_falls_back Main.simple_ilike
                Main.reversing_order Main.sample_params Main.sample_table
                "price" "asc") as (H & _).
    apply H; discriminate.
  - destruct (unknown_sort_field_falls_back Main.simple_ilike
                Main.reversing_order Main.sample_params Main.sample_table
                "budget" "ASC") as (_ & H).
    apply H; [discriminate | right; left; reflexivity].
Defined.

(** Page 2, of one row, and page 3, past the end, of the table of three. *)
Lemma page_is_bounded_witness :
  Z.of_nat
    (List.length
       (Main.page_rows Main.simple_ilike Main.reversing_order
          (Main.at_page Main.sample_params 2) Main.sample_table)) <= 2
  /\ Main.get_tenders Main.simple_ilike Main.reversing_order
       (Main.at_page Main.sample_params 3) Main.sample_table
     = Main.Returned
         {| Main.items := []; Main.total := 3; Main.page := 3;
            Main.page_size := 2 |}.
Proof.
  split.
  - destruct (page_is_bounded Main.simple_ilike Main.reversing_order
                reversing_order_keeps_rows
                (Main.at_page Main.sample_params 2) Main.sample_table)
      as (H & _); [simpl; lia | simpl; lia | exact H].
  - destruct (page_is_bounded Main.simple_ilike Main.reversing_order
                reversing_order_keeps_rows
                (Main.at_page Main.sample_params 3) Main.sample_table)
      as (_ & _ & H); [simpl; lia | simpl; lia |].
    apply H. simpl. lia.
Defined.

(** Two pages of two rows hold the table of three. *)
Lemma pages_tile_the_result_witness :
  Main.pages_upto
    (fun q' => Main.page_rows Main.simple_ilike Main.reversing_order
                 q' Main.sample_table) Main.sample_params 2
  = Main.ordered Main.simple_ilike Main.reversing_order
      Main.sample_params Main.sample_table.
Proof.
  destruct (pages_tile_the_result Main.simple_ilike Main.reversing_order
              reversing_order_keeps_rows Main.sample_params
              Main.sample_table 2) as (_ & H); [simpl; lia|].
  apply H. simpl. lia.
Defined.

(** ** One tender by its identifier *)

Lemma same_key_same_row {A : Type} (f : A -> Z) (l : list A) (a b : A) :
  NoDup (map f l) -> In a l -> In b l -> f a = f b -> a = b.
Proof.
  induction l as [|x l IH]; intros N Ha Hb E; [destruct Ha|].
  simpl in N. apply NoDup_cons_iff in N. destruct N as [Nx N].
  destruct Ha as [-> | Ha], Hb as [-> | Hb]; trivial.
  - exfalso. apply Nx. rewrite E. now apply in_map.
  - exfalso. apply Nx. rewrite <- E. now apply in_map.
  - now apply IH.
Qed.

(** X22. [get_tender] raises the 404 exactly when no row of the table has
    the identifier; what it returns is a row of the table with that
    identifier that passes the response model; and when identifiers are
    unique, asking for the identifier of a row returns that row, or a
    validation error when the row does not pass the response model. *)
Theorem get_tender_by_id (tender_id : Z) (table : list TenderDB) :
  (Main.get_tender tender_id table
   = Main.Raised (Main.HTTPException 404 "Tender not found")
   <-> forall t, In t table -> id t <> tender_id)
  /\ (forall v, Main.get_tender tender_id table = Main.Returned v ->
                In v table /\ id v = tender_id
                /\ TenderResponse.valid v = true)
  /\ (NoDup (map id table) ->
      forall t, In t table -> id t = tender_id ->
                Main.get_tender tender_id table
                = if TenderResponse.valid t then Main.Returned t
                  else Main.Raised Main.ValidationError).
Proof.
  unfold Main.get_tender, TenderResponse.model_validate.
  destruct (find (fun t => id t =? tender_id) table) as [u|] eqn:F.
  - apply find_some in F. destruct F as [Hu Eu]. apply Z.eqb_eq in Eu.
    split; [|split].
    + split.
      * destruct (TenderResponse.valid u); discriminate.
      * intros H. exfalso. exact (H u Hu Eu).
    + intros v E. destruct (TenderResponse.valid u) eqn:V; [|discriminate].
      injection E as <-. auto.
    + intros N t Ht Et.
      assert (u = t) as -> by (apply (same_key_same_row id table); congruence).
      destruct (TenderResponse.valid t); reflexivity.
  - split; [|split].
    + split; [|reflexivity]. intros _ t Ht Et.
      pose proof (find_none _ _ F t Ht) as H. simpl in H.
      apply Z.eqb_neq in H. contradiction.
    + discriminate.
    + intros N t Ht Et. exfalso.
      pose proof (find_none _ _ F t Ht) as H. simpl in H.
      apply Z.eqb_neq in H. contradiction.
Qed.

(** Row 2 of the table of three, and the identifier 4 that no row has. *)
Lemma get_tender_by_id_witness :
  Main.get_tender 2 Main.sample_table
  = Main.Returned (Main.stored_row 2 best_tender)
  /\ Main.get_tender 4 Main.sample_table
     = Main.Raised (Main.HTTPException 404 "Tender not found").
Proof.
  split.
  - destruct (get_tender_by_id 2 Main.sample_table) as (_ & _ & H).
    apply (H ltac:(repeat constructor; simpl; intuition discriminate)
             (Main.stored_row 2 best_tender));
      [simpl; tauto | reflexivity].
  - destruct (get_tender_by_id 4 Main.sample_table) as (H & _).
    apply H. intros t Ht. simpl in Ht.
    repeat (destruct Ht as [<- | Ht]; [discriminate|]). destruct Ht.
Defined.

(** ** Score bounds on seeded rows *)

(** X23. Score bounds and seeded rows: a lower bound above the upper bound
    selects nothing, and the bounds 0 and 100, with no other filter, drop
    no row whose score the seeding step stored. *)
Theorem score_bounds_on_seeded_rows
  (ilike : string -> string -> bool)
  (q : Main.Params.t) (table : list TenderDB) :
  (forall lo hi, Main.Params.min_score q = Some lo ->
                 Main.Params.max_score q = Some hi ->
                 (hi < lo)%Q ->
                 Main.filtered ilike q table = [])
  /\ (Main.Params.country q = None -> Main.Params.sector q = None ->
      Main.Params.status q = None -> Main.Params.tender_type q = None ->
      Main.Params.min_score q = Some 0%Q ->
      Main.Params.max_score q = Some 100%Q ->
      (forall t, In t table ->
                 exists e t0, score t = score (seed_score e t0)) ->
      Main.filtered ilike q table = table).
Proof.
  split.
  - intros lo hi Hlo Hhi H.
    destruct (Main.filtered ilike q table) as [|t l] eqn:E; [reflexivity|].
    exfalso.
    assert (I : In t (Main.filtered ilike q table))
      by (rewrite E; now left).
    apply filtered_In in I.
    destruct I as (_ & _ & _ & _ & _ & G & L).
    specialize (G lo Hlo). specialize (L hi Hhi).
    destruct (score t) as [v|]; simpl in G, L; [|discriminate].
    apply Qle_bool_iff in G, L. lra.
  - intros Hc Hs Hst Hty Hlo Hhi Hseed.
    unfold Main.filtered. cbv zeta. rewrite Hc, Hs, Hst, Hty, Hlo, Hhi.
    assert (R : forall t, In t table ->
                          exists v, score t = Some v /\ 0 <= v <= 100).
    { intros t Ht. destruct (Hseed t Ht) as (e & t0 & E).
      exists (calculate_score e t0). split; [exact E|].
      unfold calculate_score. lia. }
    rewrite (filter_keeps_all (fun t => Main.score_ge (score t) 0) table).
    + apply filter_keeps_all. intros t Ht.
      destruct (R t Ht) as (v & E & B). rewrite E. simpl.
      apply Qle_bool_iff. unfold Qle. simpl. lia.
    + intros t Ht. destruct (R t Ht) as (v & E & B). rewrite E. simpl.
      apply Qle_bool_iff. unfold Qle. simpl. lia.
Qed.

(** The bounds 60 and 40, and the bounds 0 and 100, on the table of
    three. *)
Lemma score_bounds_on_seeded_rows_witness :
  Main.filtered Main.simple_ilike
    {| Main.Params.country := None; Main.Params.sector := None;
       Main.Params.status := None; Main.Params.tender_type := None;
       Main.Params.min_score := Some 60%Q;
       Main.Params.max_score := Some 40%Q;
       Main.Params.sort_by := "score"; Main.Params.sort_order := "desc";
       Main.Params.page := 1; Main.Params.page_size := 20 |}
    Main.sample_table = []
  /\ Main.filtered Main.simple_ilike
       {| Main.Params.country := None; Main.Params.sector := None;
          Main.Params.status := None; Main.Params.tender_type := None;
          Main.Params.min_score := Some 0%Q;
          Main.Params.max_score := Some 100%Q;
          Main.Params.sort_by := "score"; Main.Params.sort_order := "desc";
          Main.Params.page := 1; Main.Params.page_size := 20 |}
       Main.sample_table = Main.sample_table.
Proof.
  split.
  - match goal with
    | |- Main.filtered _ ?q _ = _ =>
        destruct (score_bounds_on_seeded_rows Main.simple_ilike q
                    Main.sample_table) as (H & _)
    end.
    apply (H 60%Q 40%Q); reflexivity.
  - match goal with
    | |- Main.filtered _ ?q _ = _ =>
        destruct (score_bounds_on_seeded_rows Main.simple_ilike q
                    Main.sample_table) as (_ & H)
    end.
    apply H; try reflexivity.
    intros t Ht. simpl in Ht.
    destruct Ht as [<- | [<- | [<- | []]]].
    + exists default_engine, example_tender. reflexivity.
    + exists default_engine, best_tender. reflexivity.
    + exists default_engine, example_tender_relabelled. reflexivity.
Defined.
